(** * The Google provider adapter of zerox (node-zerox/src/models/google.ts)

    A shallow embedding of [GoogleModel]: its constructor state, the
    dispatch of [getCompletion] and the two handlers [handleOCR] and
    [handleExtraction], together with the properties the specification
    states about them.

    The adapter is asynchronous code that talks to three things outside
    itself: the vendor SDK client, the console, and a handful of helpers
    imported from sibling modules.  Promises are modelled by a small
    state-and-error monad [Async] whose state is the chronological list of
    observable interactions ([event]); a rejected promise is an [outcome]
    carrying the thrown value.  The imported helpers and the vendor are
    collected in the class [Host]. *)

From Stdlib Require Import ZArith String Ascii List Lia.
From stdpp Require Import base option strings list gmap pretty.

Set Warnings "-register-all,-clear-no-such-hyp".

Open Scope Z_scope.
Open Scope string_scope.
Open Scope list_scope.

(** ** JavaScript values *)

(** The values that flow through the adapter: generation parameters, the
    extraction schema and the result of [JSON.parse].  A number is kept as
    a decimal [m * 10^e] since the adapter never computes with it.  An
    object is the list of its own enumerable string-keyed properties, in
    the order they were defined (the place JavaScript gives to integer-like
    keys is not modelled; nothing below depends on the order). *)
Inductive value : Type :=
| Undefined
| Null
| Bool (b : bool)
| Num (m e : Z)
| Str (s : string)
| Arr (items : list value)
| Obj (props : list (string * value)).

Definition object (A : Type) : Type := list (string * A).

(** [o[k]] restricted to own properties. *)
Fixpoint obj_get {A : Type} (k : string) (o : object A) : option A :=
  match o with
  | [] => None
  | (k', v) :: o' => if String.eqb k' k then Some v else obj_get k o'
  end.

(** [o[k] = v]: an existing property keeps its place, a new one goes last. *)
Fixpoint obj_set {A : Type} (k : string) (v : A) (o : object A) : object A :=
  match o with
  | [] => [(k, v)]
  | (k', v') :: o' =>
      if String.eqb k' k then (k, v) :: o' else (k', v') :: obj_set k v o'
  end.

Definition obj_keys {A : Type} (o : object A) : list string := map fst o.

(** The characters of a string as one-character strings. *)
Fixpoint chars (s : string) : list string :=
  match s with
  | EmptyString => []
  | String c s' => String c EmptyString :: chars s'
  end.

(** Index keys ["0"], ["1"], ... paired with the elements of a list. *)
Definition indexed {A : Type} (l : list A) : object A :=
  imap (fun i x => (pretty i, x)) l.

(** The own enumerable properties an object spread [{...v}] copies: those
    of an object, the indices of an array or of a string, and nothing for
    [null], [undefined] and the other primitives. *)
Definition own_entries (v : value) : object value :=
  match v with
  | Obj props => props
  | Arr items => indexed items
  | Str s => indexed (map Str (chars s))
  | Undefined | Null | Bool _ | Num _ _ => []
  end.

(** [{...o, ...v}]: every copied property is defined on the target in turn. *)
Definition spread (v : value) (o : object value) : object value :=
  fold_left (fun acc kv => obj_set (fst kv) (snd kv) acc) (own_entries v) o.

(** [x ?? null] for an optional field. *)
Definition nullish_null (x : option (object value)) : value :=
  match x with
  | Some o => Obj o
  | None => Null
  end.

(** [n || 0] for a possibly missing count: [undefined] and [0] are falsy. *)
Definition or_zero (n : option Z) : Z :=
  match n with
  | Some n => if Z.eqb n 0 then 0 else n
  | None => 0
  end.

(** ** Thrown values *)

(** What a promise of this adapter can reject with.  [Error] is the plain
    [new Error(message)] the adapter throws itself; [TypeError] and
    [SyntaxError] are raised by the runtime (a bad call, [JSON.parse]),
    their engine-specific messages are not modelled; [IOError] and
    [VendorError] are whatever the image encoder and the vendor SDK
    rejected with. *)
Inductive exn : Type :=
| Error (message : string)
| TypeError
| SyntaxError
| IOError (info : string)
| VendorError (info : string).

Inductive outcome (A : Type) : Type :=
| Fulfilled (a : A)
| Rejected (e : exn).
Arguments Fulfilled {A} a.
Arguments Rejected {A} e.

(** ** The vendor SDK surface *)

Inductive Part : Type :=
| TextPart (text : string)
| InlineDataPart (data : string) (mimeType : string).

Record Content := { role : string; parts : list Part }.

Record GenerateContentRequest := { contents : list Content }.

Record ModelParams := { generationConfig : value; model_name : string }.

(** What [client.getGenerativeModel(params)] returns: the client's key and
    the parameters it was given. *)
Record GenerativeModel := { apiKey : string; modelParams : ModelParams }.

Record UsageMetadata := {
  promptTokenCount : option Z;
  candidatesTokenCount : option Z
}.

(** The response of a request: [text] is the string [response.text()]
    returns, [usageMetadata] is absent when the vendor reports no usage. *)
Record EnhancedResponse := {
  text : string;
  usageMetadata : option UsageMetadata
}.

(** ** Observable interactions *)

Inductive event : Type :=
| GetGenerativeModel (key : string) (p : ModelParams)
| GenerateContent (m : GenerativeModel) (req : GenerateContentRequest)
| ConsoleError (label : string) (err : exn).

Definition trace := list event.

(** The requests that went out on the wire, oldest first. *)
Definition outbound (t : trace) : list (GenerativeModel * GenerateContentRequest) :=
  omap (fun ev => match ev with
                  | GenerateContent m req => Some (m, req)
                  | _ => None
                  end) t.

(** The errors written to the console, oldest first. *)
Definition logged (t : trace) : list (string * exn) :=
  omap (fun ev => match ev with
                  | ConsoleError label err => Some (label, err)
                  | _ => None
                  end) t.

(** ** Promises *)

Definition Async (A : Type) : Type := trace -> outcome A * trace.

Definition ret {A : Type} (a : A) : Async A := fun t => (Fulfilled a, t).

Definition throw {A : Type} (e : exn) : Async A := fun t => (Rejected e, t).

Definition bind {A B : Type} (m : Async A) (k : A -> Async B) : Async B :=
  fun t =>
    match m t with
    | (Fulfilled a, t') => k a t'
    | (Rejected e, t') => (Rejected e, t')
    end.

(** [try { body } catch (err) { handler }]. *)
Definition try_catch {A : Type} (body : Async A) (handler : exn -> Async A)
  : Async A :=
  fun t =>
    match body t with
    | (Fulfilled a, t') => (Fulfilled a, t')
    | (Rejected e, t') => handler e t'
    end.

Definition emit (ev : event) : Async unit := fun t => (Fulfilled tt, t ++ [ev]).

(** Settle a value computed elsewhere. *)
Definition settle {A : Type} (o : outcome A) : Async A := fun t => (o, t).

Declare Scope async_scope.
Delimit Scope async_scope with async.
Notation "'let*' x ':=' m 'in' k" := (bind m (fun x => k))
  (at level 10, x name, m at level 100, k at level 200) : async_scope.
Notation "m ';;' k" := (bind m (fun _ => k))
  (at level 100, k at level 200, right associativity) : async_scope.
Open Scope async_scope.

(** Run a promise from an empty history. *)
Definition run {A : Type} (m : Async A) : outcome A * trace := m [].

(** ** Property lookup on an object literal *)

(** The members every object literal inherits from [Object.prototype]. *)
Inductive builtin : Type :=
| Object_constructor
| Object_prototype_itself
| defineGetter
| defineSetter
| lookupGetter
| lookupSetter
| hasOwnProperty
| isPrototypeOf
| propertyIsEnumerable
| toLocaleString
| toString
| valueOf.

Definition Object_prototype : gmap string builtin :=
  list_to_map
    [("constructor", Object_constructor);
     ("__proto__", Object_prototype_itself);
     ("__defineGetter__", defineGetter);
     ("__defineSetter__", defineSetter);
     ("__lookupGetter__", lookupGetter);
     ("__lookupSetter__", lookupSetter);
     ("hasOwnProperty", hasOwnProperty);
     ("isPrototypeOf", isPrototypeOf);
     ("propertyIsEnumerable", propertyIsEnumerable);
     ("toLocaleString", toLocaleString);
     ("toString", toString);
     ("valueOf", valueOf)].

Inductive property (A : Type) : Type :=
| Own (a : A)
| Inherited (b : builtin).
Arguments Own {A} a.
Arguments Inherited {A} b.

(** [o[k]] for an object literal [o]: an own property first, then the
    prototype chain, which for a literal is [Object.prototype] alone;
    [None] is [undefined]. *)
Definition js_get {A : Type} (o : gmap string A) (k : string)
  : option (property A) :=
  match o !! k with
  | Some a => Some (Own a)
  | None => Inherited <$> Object_prototype !! k
  end.

(** [f()] for an inherited member [f]: a plain call, so [this] is
    [undefined] and there is no argument.  [Object()] makes an empty
    object, [isPrototypeOf] answers [false] for a non-object argument,
    [toString] names the [undefined] receiver; the other functions start by
    converting the receiver to an object, which throws, and the value of
    [__proto__] is an object, not a function. *)
Definition call_inherited (b : builtin) : outcome value :=
  match b with
  | Object_constructor => Fulfilled (Obj [])
  | isPrototypeOf => Fulfilled (Bool false)
  | toString => Fulfilled (Str "[object Undefined]")
  | Object_prototype_itself
  | defineGetter | defineSetter | lookupGetter | lookupSetter
  | hasOwnProperty | propertyIsEnumerable | toLocaleString | valueOf =>
      Rejected TypeError
  end.

(** ** Collaborators *)

(** Everything [google.ts] imports or is handed and that lives outside it:
    the prompt constants of [../constants], the helpers of [../utils], the
    runtime's [JSON.parse] and the vendor's [generateContent].  The image
    encoder reads a file and can fail, the vendor answers a request with a
    response or rejects it: [inl] carries what the failure reports. *)
Class Host := {
  SYSTEM_PROMPT_BASE : string;
  CONSISTENCY_PROMPT : string -> string;
  convertKeysToSnakeCase : value -> value;
  encodeImageToBase64 : string -> string + string;
  JSON_parse : string -> option value;
  vendor_generateContent :
    GenerativeModel -> GenerateContentRequest -> string + EnhancedResponse
}.

(** Modelled from the spec: the [OperationMode] enumeration {OCR, EXTRACTION}
    of [../types], which is not part of this file.  A mode is represented by
    the property key it indexes the dispatch table with, so that a value
    outside the enumeration, forced in by a cast, can be written down. *)
Module OperationMode.
(** Modelled from the spec: the member EXTRACTION of the enumeration. *)
Definition EXTRACTION : string := "EXTRACTION".
(** Modelled from the spec: the member OCR of the enumeration. *)
Definition OCR : string := "OCR".
End OperationMode.

(** ** Requests and results *)

(** [CompletionArgs | ExtractionArgs]: the parameter of [getCompletion] is
    cast to whichever shape the handler destructures, so one record carries
    the fields of both; a field the caller left out is [None] (or
    [Undefined] for the schema). *)
Record Args := {
  image : string;
  maintainFormat : option bool;
  priorPage : option string;
  schema : value
}.

(** [CompletionResponse | ExtractionResponse], and [Foreign] for a value
    that is neither (see [getCompletion]). *)
Inductive Response : Type :=
| CompletionResponse (content : string) (inputTokens outputTokens : Z)
| ExtractionResponse (extracted : value) (inputTokens outputTokens : Z)
| Foreign (v : value).

(** ** The adapter *)

Record GoogleModel := {
  client : string;
  mode : string;
  model : string;
  llmParams : option (object value)
}.

(** [new GoogleModel(credentials, mode, model, llmParams)]; the client is
    represented by the API key it was built from. *)
Definition new_GoogleModel (credentials_apiKey mode model : string)
    (llmParams : option (object value)) : GoogleModel :=
  {| client := credentials_apiKey; mode := mode; model := model;
     llmParams := llmParams |}.

Section Adapter.
Context `{host : Host}.

Definition getGenerativeModel (key : string) (p : ModelParams)
  : Async GenerativeModel :=
  emit (GetGenerativeModel key p);;
  ret {| apiKey := key; modelParams := p |}.

Definition generateContent (m : GenerativeModel) (req : GenerateContentRequest)
  : Async EnhancedResponse :=
  emit (GenerateContent m req);;
  match vendor_generateContent m req with
  | inr response => ret response
  | inl info => throw (VendorError info)
  end.

Definition encodeImage (path : string) : Async string :=
  match encodeImageToBase64 path with
  | inr base64 => ret base64
  | inl info => throw (IOError info)
  end.

Definition console_error (label : string) (err : exn) : Async unit :=
  emit (ConsoleError label err).

(** [maintainFormat && priorPage && priorPage.length] as a condition. *)
Definition wants_consistency (maintainFormat : option bool)
    (priorPage : option string) : option string :=
  match maintainFormat, priorPage with
  | Some true, Some p => if Nat.eqb (String.length p) 0 then None else Some p
  | _, _ => None
  end.

Definition handleOCR (this : GoogleModel) (args : Args) : Async Response :=
  let* generativeModel :=
    getGenerativeModel (client this)
      {| generationConfig := convertKeysToSnakeCase (nullish_null (llmParams this));
         model_name := model this |} in
  let promptParts := [] in
  let promptParts := promptParts ++ [TextPart SYSTEM_PROMPT_BASE] in
  let promptParts :=
    match wants_consistency (maintainFormat args) (priorPage args) with
    | Some p => promptParts ++ [TextPart (CONSISTENCY_PROMPT p)]
    | None => promptParts
    end in
  let* base64Image := encodeImage (image args) in
  let imageData := InlineDataPart base64Image "image/png" in
  let promptParts := promptParts ++ [imageData] in
  try_catch
    (let* response :=
       generateContent generativeModel
         {| contents := [{| role := "user"; parts := promptParts |}] |} in
     ret (CompletionResponse (text response)
            (or_zero (usageMetadata response ≫= promptTokenCount))
            (or_zero (usageMetadata response ≫= candidatesTokenCount))))
    (fun err =>
       console_error "Error in Google completion" err;;
       throw err).

Definition handleExtraction (this : GoogleModel) (args : Args) : Async Response :=
  let* generativeModel :=
    getGenerativeModel (client this)
      {| generationConfig :=
           Obj (obj_set "responseSchema" (schema args)
                  (obj_set "responseMimeType" (Str "application/json")
                     (spread (convertKeysToSnakeCase (nullish_null (llmParams this)))
                        [])));
         model_name := model this |} in
  let promptParts := [] in
  let text_ := "Extract schema data from the following image" in
  let promptParts := promptParts ++ [TextPart text_] in
  let* base64Image := encodeImage (image args) in
  let imageData := InlineDataPart base64Image "image/png" in
  let promptParts := promptParts ++ [imageData] in
  try_catch
    (let* response :=
       generateContent generativeModel
         {| contents := [{| role := "user"; parts := promptParts |}] |} in
     let* extracted :=
       match JSON_parse (text response) with
       | Some v => ret v
       | None => throw SyntaxError
       end in
     ret (ExtractionResponse extracted
            (or_zero (usageMetadata response ≫= promptTokenCount))
            (or_zero (usageMetadata response ≫= candidatesTokenCount))))
    (fun err =>
       console_error "Error in Google completion" err;;
       throw err).

Definition getCompletion (this : GoogleModel) (params : Args) : Async Response :=
  let modeHandlers : gmap string (Async Response) :=
    <[OperationMode.OCR := handleOCR this params]>
      (<[OperationMode.EXTRACTION := handleExtraction this params]> ∅) in
  let handler := js_get modeHandlers (mode this) in
  match handler with
  | None => throw (Error ("Unsupported operation mode: " +:+ mode this))
  | Some (Own handler) => handler
  | Some (Inherited f) =>
      let* v := settle (call_inherited f) in
      ret (Foreign v)
  end.

End Adapter.

(** ** Key casing *)

(** Modelled from the spec: [convertKeysToSnakeCase] of [../utils], which is
    not part of this file.  The specification describes it as a stateless
    recursive mapping over a generic key-value structure that translates
    key names from camelCase to snake_case: every upper-case letter of a
    key becomes an underscore followed by its lower-case form, the values
    of nested objects are translated the same way, and anything that is
    not a key-value structure is returned as it is. *)
Module SnakeCase.

Definition is_upper (c : ascii) : bool :=
  let n := N_of_ascii c in (N.leb 65 n && N.leb n 90)%bool.

Definition to_lower (c : ascii) : ascii :=
  if is_upper c then ascii_of_N (N_of_ascii c + 32) else c.

(** Modelled from the spec: the camelCase to snake_case translation of one
    key name, the part of [convertKeysToSnakeCase] that acts on keys. *)
Fixpoint camelToSnakeCase (s : string) : string :=
  match s with
  | EmptyString => EmptyString
  | String c s' =>
      if is_upper c
      then String "_" (String (to_lower c) (camelToSnakeCase s'))
      else String c (camelToSnakeCase s')
  end.

(** The object made of the given entries, a later entry replacing an
    earlier one of the same key. *)
Definition fromEntries {A : Type} (entries : list (string * A)) : object A :=
  fold_left (fun acc kv => obj_set (fst kv) (snd kv) acc) entries [].

(** Modelled from the spec: [convertKeysToSnakeCase] of [../utils], the
    recursive mapping that translates the keys of a key-value structure. *)
Fixpoint convertKeysToSnakeCase (v : value) : value :=
  match v with
  | Obj props =>
      Obj (fromEntries
             (map (fun kv => match kv with
                             | (k, x) => (camelToSnakeCase k, convertKeysToSnakeCase x)
                             end) props))
  | _ => v
  end.

End SnakeCase.

(** ** A concrete host *)

(** Base64 of a byte string, with padding. *)
Module Base64.

Definition alphabet : string :=
  "ABCDEFGHIJKLMNOPQRSTUVWXYZabcdefghijklmnopqrstuvwxyz0123456789+/".

Definition digit (n : N) : ascii :=
  match String.get (N.to_nat n) alphabet with
  | Some c => c
  | None => "="%char
  end.

Definition quad (a b c : N) : N := (a * 65536 + b * 256 + c)%N.

Fixpoint encode (bytes : list N) : string :=
  match bytes with
  | [] => EmptyString
  | [a] =>
      let n := quad a 0 0 in
      String (digit (n / 262144)) (String (digit ((n / 4096) mod 64)) "==")
  | [a; b] =>
      let n := quad a b 0 in
      String (digit (n / 262144))
        (String (digit ((n / 4096) mod 64))
           (String (digit ((n / 64) mod 64)) "="))
  | a :: b :: c :: rest =>
      let n := quad a b c in
      String (digit (n / 262144))
        (String (digit ((n / 4096) mod 64))
           (String (digit ((n / 64) mod 64))
              (String (digit (n mod 64)) (encode rest))))
  end%N.

Definition of_string (s : string) : string :=
  encode (map N_of_ascii (list_ascii_of_string s)).

End Base64.

(** A reader for JSON texts: literals, decimal numbers, strings with their
    escapes (a [\u] escape is stored as the UTF-8 bytes of its code unit),
    arrays and objects, with insignificant white space. *)
Module JSON.

Definition quote : ascii := ascii_of_N 34.
Definition backslash : ascii := ascii_of_N 92.

Definition is_ws (c : ascii) : bool :=
  let n := N_of_ascii c in
  (N.eqb n 32 || N.eqb n 9 || N.eqb n 10 || N.eqb n 13)%bool.

Fixpoint skip_ws (s : string) : string :=
  match s with
  | String c s' => if is_ws c then skip_ws s' else s
  | EmptyString => EmptyString
  end.

Definition is_digit (c : ascii) : bool :=
  let n := N_of_ascii c in (N.leb 48 n && N.leb n 57)%bool.

Definition digit_value (c : ascii) : Z := Z.of_N (N_of_ascii c) - 48.

(** The longest run of digits at the front of [s]: its value on top of
    [acc], its length on top of [n], and what follows it. *)
Fixpoint digits (s : string) (acc : Z) (n : nat) : Z * nat * string :=
  match s with
  | String c s' =>
      if is_digit c then digits s' (acc * 10 + digit_value c) (S n)
      else (acc, n, s)
  | EmptyString => (acc, n, s)
  end.

Definition integer_part (s : string) : option (Z * string) :=
  match s with
  | String "0" r => Some (0, r)
  | String c _ =>
      if is_digit c then
        match digits s 0 0 with (i, _, r) => Some (i, r) end
      else None
  | EmptyString => None
  end.

Definition fraction_part (i : Z) (s : string) : option (Z * Z * string) :=
  match s with
  | String "." r =>
      match digits r i 0 with
      | (_, O, _) => None
      | (m, n, r') => Some (m, - Z.of_nat n, r')
      end
  | _ => Some (i, 0, s)
  end.

Definition exponent_part (s : string) : option (Z * string) :=
  let signed (sign : Z) (r : string) :=
    match digits r 0 0 with
    | (_, O, _) => None
    | (x, _, r') => Some (sign * x, r')
    end in
  let after_e (r : string) :=
    match r with
    | String "+" r' => signed 1 r'
    | String "-" r' => signed (-1) r'
    | _ => signed 1 r
    end in
  match s with
  | String "e" r => after_e r
  | String "E" r => after_e r
  | _ => Some (0, s)
  end.

Definition number (s : string) : option (value * string) :=
  let (sign, s1) :=
    match s with
    | String "-" r => (-1, r)
    | _ => (1, s)
    end in
  '(i, s2) ← integer_part s1;
  '(m, e1, s3) ← fraction_part i s2;
  '(e2, s4) ← exponent_part s3;
  Some (Num (sign * m) (e1 + e2), s4).

Definition hex_value (c : ascii) : option N :=
  let n := N_of_ascii c in
  if (N.leb 48 n && N.leb n 57)%bool then Some (n - 48)%N
  else if (N.leb 65 n && N.leb n 70)%bool then Some (n - 55)%N
  else if (N.leb 97 n && N.leb n 102)%bool then Some (n - 87)%N
  else None.

Definition utf8 (cp : N) (tail : string) : string :=
  (if N.ltb cp 128 then String (ascii_of_N cp) tail
   else if N.ltb cp 2048 then
     String (ascii_of_N (192 + cp / 64))
       (String (ascii_of_N (128 + cp mod 64)) tail)
   else
     String (ascii_of_N (224 + cp / 4096))
       (String (ascii_of_N (128 + (cp / 64) mod 64))
          (String (ascii_of_N (128 + cp mod 64)) tail)))%N.

(** The characters of a string literal after its opening quote. *)
Fixpoint string_body (s : string) : option (string * string) :=
  match s with
  | EmptyString => None
  | String c r =>
      if Ascii.eqb c quote then Some (EmptyString, r)
      else if Ascii.eqb c backslash then
        match r with
        | String "u" (String h1 (String h2 (String h3 (String h4 r')))) =>
            a ← hex_value h1; b ← hex_value h2;
            c ← hex_value h3; d ← hex_value h4;
            '(body, rest) ← string_body r';
            Some (utf8 (a * 4096 + b * 256 + c * 16 + d)%N body, rest)
        | String e r' =>
            ch ← (if Ascii.eqb e quote then Some quote
                  else if Ascii.eqb e backslash then Some backslash
                  else match e with
                       | "/" => Some "/"
                       | "b" => Some (ascii_of_N 8)
                       | "f" => Some (ascii_of_N 12)
                       | "n" => Some (ascii_of_N 10)
                       | "r" => Some (ascii_of_N 13)
                       | "t" => Some (ascii_of_N 9)
                       | _ => None
                       end)%char;
            '(body, rest) ← string_body r';
            Some (String ch body, rest)
        | EmptyString => None
        end
      else if N.ltb (N_of_ascii c) 32 then None
      else '(body, rest) ← string_body r; Some (String c body, rest)
  end.

Definition literal (word : string) (v : value) (s : string)
  : option (value * string) :=
  if String.prefix word s
  then Some (v, String.substring (String.length word)
                  (String.length s - String.length word) s)
  else None.

Fixpoint element (fuel : nat) (s : string) : option (value * string) :=
  match fuel with
  | O => None
  | S fuel' =>
      match skip_ws s with
      | String "{" r =>
          match skip_ws r with
          | String "}" r' => Some (Obj [], r')
          | r' => members fuel' r' []
          end
      | String "[" r =>
          match skip_ws r with
          | String "]" r' => Some (Arr [], r')
          | r' => elements fuel' r' []
          end
      | String "n" _ => literal "null" Null (skip_ws s)
      | String "t" _ => literal "true" (Bool true) (skip_ws s)
      | String "f" _ => literal "false" (Bool false) (skip_ws s)
      | String c r =>
          if Ascii.eqb c quote then
            '(str, r') ← string_body r; Some (Str str, r')
          else number (skip_ws s)
      | EmptyString => None
      end
  end
with elements (fuel : nat) (s : string) (acc : list value)
  : option (value * string) :=
  match fuel with
  | O => None
  | S fuel' =>
      '(v, r) ← element fuel' s;
      match skip_ws r with
      | String "," r' => elements fuel' r' (acc ++ [v])
      | String "]" r' => Some (Arr (acc ++ [v]), r')
      | _ => None
      end
  end
with members (fuel : nat) (s : string) (acc : object value)
  : option (value * string) :=
  match fuel with
  | O => None
  | S fuel' =>
      match skip_ws s with
      | String c r =>
          if Ascii.eqb c quote then
            '(k, r1) ← string_body r;
            match skip_ws r1 with
            | String ":" r2 =>
                '(v, r3) ← element fuel' r2;
                match skip_ws r3 with
                | String "," r4 => members fuel' r4 (obj_set k v acc)
                | String "}" r4 => Some (Obj (obj_set k v acc), r4)
                | _ => None
                end
            | _ => None
            end
          else None
      | EmptyString => None
      end
  end.

(** [JSON.parse(text)]: one value, nothing but white space after it. *)
Definition parse (text : string) : option value :=
  '(v, r) ← element (2 * String.length text + 2) text;
  match skip_ws r with
  | EmptyString => Some v
  | _ => None
  end.

End JSON.

(** A host to run the adapter on: two image files on disk, the helpers
    above, short prompt texts, and a vendor that gives the same scripted
    reply to whatever it is asked. *)
Module Fixture.

Definition files : object string :=
  [("page-1.png", "PNG page one"); ("scan.jpg", "JFIF scan")].

Definition read_base64 (path : string) : string + string :=
  match obj_get path files with
  | Some bytes => inr (Base64.of_string bytes)
  | None => inl ("ENOENT: no such file or directory, open " +:+ path)
  end.

Definition host (reply : string + EnhancedResponse) : Host :=
  {| SYSTEM_PROMPT_BASE := "Convert the following document to markdown.";
     CONSISTENCY_PROMPT := fun priorPage =>
       "Markdown must maintain consistent formatting with the following page: "
       +:+ priorPage;
     convertKeysToSnakeCase := SnakeCase.convertKeysToSnakeCase;
     encodeImageToBase64 := read_base64;
     JSON_parse := JSON.parse;
     vendor_generateContent := fun _ _ => reply |}.

Definition params : object value :=
  [("temperature", Num 7 (-1)); ("maxOutputTokens", Num 1024 0);
   ("topP", Num 95 (-2))].

Definition ocr : GoogleModel :=
  new_GoogleModel "key" OperationMode.OCR "gemini-1.5-flash" (Some params).

Definition extraction : GoogleModel :=
  new_GoogleModel "key" OperationMode.EXTRACTION "gemini-1.5-flash" (Some params).

Definition invoice_schema : value :=
  Obj [("type", Str "object");
       ("properties", Obj [("total", Obj [("type", Str "number")])])].

Definition page (maintainFormat : option bool) (priorPage : option string) : Args :=
  {| image := "page-1.png"; maintainFormat := maintainFormat;
     priorPage := priorPage; schema := Undefined |}.

Definition invoice : Args :=
  {| image := "scan.jpg"; maintainFormat := None; priorPage := None;
     schema := invoice_schema |}.

Definition answer (text : string) (usage : option UsageMetadata)
  : string + EnhancedResponse :=
  inr {| text := text; usageMetadata := usage |}.

End Fixture.

(** ** Vocabulary for the statements *)

Section Vocabulary.
Context `{host : Host}.
Implicit Types (this : GoogleModel) (args : Args).

(** The model parameters each handler hands to the vendor client. *)
Definition ocr_params this : ModelParams :=
  {| generationConfig := convertKeysToSnakeCase (nullish_null (llmParams this));
     model_name := model this |}.

Definition extraction_params this args : ModelParams :=
  {| generationConfig :=
       Obj (obj_set "responseSchema" (schema args)
              (obj_set "responseMimeType" (Str "application/json")
                 (spread (convertKeysToSnakeCase (nullish_null (llmParams this)))
                    [])));
     model_name := model this |}.

Definition user_turn (parts : list Part) : GenerateContentRequest :=
  {| contents := [{| role := "user"; parts := parts |}] |}.

Definition usage_counts (r : EnhancedResponse) : Z * Z :=
  (or_zero (usageMetadata r ≫= promptTokenCount),
   or_zero (usageMetadata r ≫= candidatesTokenCount)).

(** The text parts the OCR handler puts in front of the image. *)
Definition ocr_texts args : list Part :=
  TextPart SYSTEM_PROMPT_BASE ::
  match wants_consistency (maintainFormat args) (priorPage args) with
  | Some p => [TextPart (CONSISTENCY_PROMPT p)]
  | None => []
  end.

(** The vendor gives [reply] to every request found in the history [t]. *)
Definition vendor_replies (t : trace) (reply : string + EnhancedResponse)
  : Prop :=
  ∀ m req, (m, req) ∈ outbound t → vendor_generateContent m req = reply.

(** The generation configurations the vendor client was given in [t],
    at model creation and with each request. *)
Definition configs (t : trace) : list value :=
  omap (fun ev => match ev with
                  | GetGenerativeModel _ p => Some (generationConfig p)
                  | GenerateContent m _ => Some (generationConfig (modelParams m))
                  | ConsoleError _ _ => None
                  end) t.

End Vocabulary.

(** The model handles created in a history, oldest first. *)
Definition created (t : trace) : list (string * ModelParams) :=
  omap (fun ev => match ev with
                  | GetGenerativeModel key p => Some (key, p)
                  | _ => None
                  end) t.

(** What the two naming conventions are, said without the helper that
    translates between them.  A snake_case name has no upper-case letter,
    its words are separated by underscores; a camelCase name has no
    underscore, its words start with an upper-case letter.  [snakeToCamel]
    reads a snake_case name back: an underscore followed by a lower-case
    letter stands for that letter in upper case. *)
Definition is_upper_letter (c : ascii) : bool :=
  let n := N_of_ascii c in (N.leb 65 n && N.leb n 90)%bool.

Definition is_lower_letter (c : ascii) : bool :=
  let n := N_of_ascii c in (N.leb 97 n && N.leb n 122)%bool.

Definition to_upper (c : ascii) : ascii :=
  if is_lower_letter c then ascii_of_N (N_of_ascii c - 32) else c.

Definition is_snake_case (s : string) : bool :=
  forallb (fun c => negb (is_upper_letter c)) (list_ascii_of_string s).

Definition is_camel_case (s : string) : bool :=
  forallb (fun c => negb (Ascii.eqb c "_")) (list_ascii_of_string s).

Fixpoint snakeToCamel (s : string) : string :=
  match s with
  | EmptyString => EmptyString
  | String a t =>
      if Ascii.eqb a "_" then
        match t with
        | String c t' =>
            if is_lower_letter c then String (to_upper c) (snakeToCamel t')
            else String a (snakeToCamel t)
        | EmptyString => String a EmptyString
        end
      else String a (snakeToCamel t)
  end.

Definition has_upper (s : string) : bool :=
  existsb SnakeCase.is_upper (list_ascii_of_string s).

Definition is_text (p : Part) : Prop :=
  match p with TextPart _ => True | InlineDataPart _ _ => False end.

Definition registered (mode : string) : Prop :=
  mode = OperationMode.OCR ∨ mode = OperationMode.EXTRACTION.

(** * Properties *)

(** ** Objects *)

Section Objects.
Context {A : Type}.
Implicit Types (k : string) (v : A) (o : object A).

Lemma obj_get_set_eq k v o : obj_get k (obj_set k v o) = Some v.
Proof.
  induction o as [|[k' v'] o IH]; simpl.
  - by rewrite String.eqb_refl.
  - destruct (String.eqb_spec k' k) as [->|Hne]; simpl.
    + by rewrite String.eqb_refl.
    + by apply String.eqb_neq in Hne as ->.
Qed.

Lemma obj_get_set_ne k k' v o :
  k ≠ k' → obj_get k' (obj_set k v o) = obj_get k' o.
Proof.
  intros Hkk'. induction o as [|[k0 v0] o IH]; simpl.
  - by apply String.eqb_neq in Hkk' as ->.
  - destruct (String.eqb_spec k0 k) as [->|Hne]; simpl.
    + by apply String.eqb_neq in Hkk' as ->.
    + by rewrite IH.
Qed.

Lemma obj_keys_set k k' v o :
  k' ∈ obj_keys (obj_set k v o) ↔ k' = k ∨ k' ∈ obj_keys o.
Proof.
  unfold obj_keys. induction o as [|[k0 v0] o IH]; simpl.
  - set_solver.
  - destruct (String.eqb_spec k0 k) as [->|Hne]; simpl.
    + set_solver.
    + rewrite !elem_of_cons, IH. naive_solver.
Qed.


(** Building an object entry by entry: its keys are those of the
    entries and of the object one started from. *)
Lemma obj_keys_fold k (entries : list (string * A)) o :
  k ∈ obj_keys (fold_left (fun acc kv => obj_set (fst kv) (snd kv) acc) entries o)
  ↔ k ∈ map fst entries ∨ k ∈ obj_keys o.
Proof.
  revert o. induction entries as [|[k0 v0] entries IH]; intros o; simpl.
  - set_solver.
  - rewrite IH, obj_keys_set, elem_of_cons. naive_solver.
Qed.

(** A key that no later entry touches keeps the value it has. *)
Lemma obj_get_fold_notin k (entries : list (string * A)) o :
  k ∉ map fst entries →
  obj_get k (fold_left (fun acc kv => obj_set (fst kv) (snd kv) acc) entries o)
  = obj_get k o.
Proof.
  revert o. induction entries as [|[k0 v0] entries IH]; intros o Hk; simpl.
  - done.
  - simpl in Hk. apply not_elem_of_cons in Hk as [Hne Hk].
    rewrite IH by done. by apply obj_get_set_ne.
Qed.

(** With distinct keys, every entry is found again under its key. *)
Lemma obj_get_fold_NoDup k v (entries : list (string * A)) o :
  NoDup (map fst entries) → (k, v) ∈ entries →
  obj_get k (fold_left (fun acc kv => obj_set (fst kv) (snd kv) acc) entries o)
  = Some v.
Proof.
  revert o. induction entries as [|[k0 v0] entries IH]; intros o Hnd Hin; simpl.
  - by apply elem_of_nil in Hin.
  - simpl in Hnd. apply NoDup_cons in Hnd as [Hk0 Hnd].
    apply elem_of_cons in Hin as [[= -> ->]|Hin].
    + rewrite obj_get_fold_notin by done. apply obj_get_set_eq.
    + by apply IH.
Qed.

Lemma obj_get_elem_of k v o : obj_get k o = Some v → (k, v) ∈ o.
Proof.
  induction o as [|[k0 v0] o IH]; simpl; [done|].
  destruct (String.eqb_spec k0 k) as [->|Hne].
  - intros [= ->]. apply elem_of_cons; by left.
  - intros ?%IH. apply elem_of_cons; by right.
Qed.

End Objects.

(** ** What a call does, case by case *)

Section Runs.
Context `{host : Host}.
Implicit Types (this : GoogleModel) (args : Args).

Lemma handleOCR_run this args :
  let p := ocr_params this in
  let m := {| apiKey := client this; modelParams := p |} in
  run (handleOCR this args) =
  match encodeImageToBase64 (image args) with
  | inl info => (Rejected (IOError info), [GetGenerativeModel (client this) p])
  | inr base64 =>
      let req := user_turn (ocr_texts args ++ [InlineDataPart base64 "image/png"]) in
      match vendor_generateContent m req with
      | inl info =>
          (Rejected (VendorError info),
           [GetGenerativeModel (client this) p; GenerateContent m req;
            ConsoleError "Error in Google completion" (VendorError info)])
      | inr r =>
          (Fulfilled (CompletionResponse (text r)
                        (fst (usage_counts r)) (snd (usage_counts r))),
           [GetGenerativeModel (client this) p; GenerateContent m req])
      end
  end.
Proof.
  unfold run, handleOCR, getGenerativeModel, encodeImage, generateContent,
    console_error, try_catch, bind, emit, ret, throw, ocr_texts, user_turn.
  simpl.
  destruct (encodeImageToBase64 (image args)) as [info|base64]; [done|].
  destruct (wants_consistency _ _); simpl;
    destruct (vendor_generateContent _ _); done.
Qed.

Lemma handleExtraction_run this args :
  let p := extraction_params this args in
  let m := {| apiKey := client this; modelParams := p |} in
  run (handleExtraction this args) =
  match encodeImageToBase64 (image args) with
  | inl info => (Rejected (IOError info), [GetGenerativeModel (client this) p])
  | inr base64 =>
      let req :=
        user_turn [TextPart "Extract schema data from the following image";
                   InlineDataPart base64 "image/png"] in
      match vendor_generateContent m req with
      | inl info =>
          (Rejected (VendorError info),
           [GetGenerativeModel (client this) p; GenerateContent m req;
            ConsoleError "Error in Google completion" (VendorError info)])
      | inr r =>
          match JSON_parse (text r) with
          | None =>
              (Rejected SyntaxError,
               [GetGenerativeModel (client this) p; GenerateContent m req;
                ConsoleError "Error in Google completion" SyntaxError])
          | Some v =>
              (Fulfilled (ExtractionResponse v
                            (fst (usage_counts r)) (snd (usage_counts r))),
               [GetGenerativeModel (client this) p; GenerateContent m req])
          end
      end
  end.
Proof.
  unfold run, handleExtraction, getGenerativeModel, encodeImage,
    generateContent, console_error, try_catch, bind, emit, ret, throw,
    user_turn.
  simpl.
  destruct (encodeImageToBase64 (image args)) as [info|base64]; [done|].
  simpl. destruct (vendor_generateContent _ _) as [info|r]; [done|].
  simpl. destruct (JSON_parse (text r)); done.
Qed.

(** Dispatch. *)

Lemma getCompletion_OCR this args :
  mode this = OperationMode.OCR →
  getCompletion this args = handleOCR this args.
Proof.
  intros Hmode. unfold getCompletion, js_get. rewrite Hmode.
  by rewrite lookup_insert_eq.
Qed.

Lemma getCompletion_EXTRACTION this args :
  mode this = OperationMode.EXTRACTION →
  getCompletion this args = handleExtraction this args.
Proof.
  intros Hmode. unfold getCompletion, js_get. rewrite Hmode.
  rewrite lookup_insert_ne by done. by rewrite lookup_insert_eq.
Qed.

Lemma getCompletion_unregistered this args :
  mode this ≠ OperationMode.OCR →
  mode this ≠ OperationMode.EXTRACTION →
  Object_prototype !! mode this = None →
  getCompletion this args
  = throw (Error ("Unsupported operation mode: " +:+ mode this)).
Proof.
  intros Hocr Hext Hproto. unfold getCompletion, js_get.
  rewrite lookup_insert_ne by done. rewrite lookup_insert_ne by done.
  rewrite lookup_empty. by rewrite Hproto.
Qed.

Lemma getCompletion_inherited this args f :
  Object_prototype !! mode this = Some f →
  run (getCompletion this args)
  = (match call_inherited f with
     | Fulfilled v => Fulfilled (Foreign v)
     | Rejected e => Rejected e
     end, []).
Proof.
  intros Hproto. unfold getCompletion, js_get.
  assert (mode this ≠ OperationMode.OCR) as Hocr.
  { intros Heq. rewrite Heq in Hproto. by vm_compute in Hproto. }
  assert (mode this ≠ OperationMode.EXTRACTION) as Hext.
  { intros Heq. rewrite Heq in Hproto. by vm_compute in Hproto. }
  rewrite lookup_insert_ne by done. rewrite lookup_insert_ne by done.
  rewrite lookup_empty, Hproto. simpl.
  unfold run, bind, settle, ret. by destruct (call_inherited f).
Qed.

End Runs.

(** ** What goes out on the wire *)

Section Wire.
Context `{host : Host}.
Implicit Types (this : GoogleModel) (args : Args).

Lemma handleOCR_outbound this args :
  outbound (snd (run (handleOCR this args))) =
  match encodeImageToBase64 (image args) with
  | inl _ => []
  | inr base64 =>
      [({| apiKey := client this; modelParams := ocr_params this |},
        user_turn (ocr_texts args ++ [InlineDataPart base64 "image/png"]))]
  end.
Proof.
  rewrite handleOCR_run. simpl.
  destruct (encodeImageToBase64 _); [done|].
  by destruct (vendor_generateContent _ _).
Qed.

Lemma handleExtraction_outbound this args :
  outbound (snd (run (handleExtraction this args))) =
  match encodeImageToBase64 (image args) with
  | inl _ => []
  | inr base64 =>
      [({| apiKey := client this; modelParams := extraction_params this args |},
        user_turn [TextPart "Extract schema data from the following image";
                   InlineDataPart base64 "image/png"])]
  end.
Proof.
  rewrite handleExtraction_run. simpl.
  destruct (encodeImageToBase64 _); [done|].
  destruct (vendor_generateContent _ _) as [|r]; [done|].
  by destruct (JSON_parse _).
Qed.

(** Once the image is encoded, the reply the vendor gives to what is sent
    is the reply to the one request of the handler. *)
Lemma vendor_replies_OCR this args base64 reply :
  encodeImageToBase64 (image args) = inr base64 →
  vendor_replies (snd (run (handleOCR this args))) reply →
  vendor_generateContent
    {| apiKey := client this; modelParams := ocr_params this |}
    (user_turn (ocr_texts args ++ [InlineDataPart base64 "image/png"]))
  = reply.
Proof.
  intros Henc Hreply. apply Hreply.
  rewrite handleOCR_outbound, Henc. apply list_elem_of_singleton. done.
Qed.

Lemma vendor_replies_extraction this args base64 reply :
  encodeImageToBase64 (image args) = inr base64 →
  vendor_replies (snd (run (handleExtraction this args))) reply →
  vendor_generateContent
    {| apiKey := client this; modelParams := extraction_params this args |}
    (user_turn [TextPart "Extract schema data from the following image";
                InlineDataPart base64 "image/png"])
  = reply.
Proof.
  intros Henc Hreply. apply Hreply.
  rewrite handleExtraction_outbound, Henc. apply list_elem_of_singleton. done.
Qed.

(** The run of a handler, given the reply to what it sends. *)
Lemma handleOCR_run_reply this args base64 reply :
  encodeImageToBase64 (image args) = inr base64 →
  vendor_replies (snd (run (handleOCR this args))) reply →
  let m := {| apiKey := client this; modelParams := ocr_params this |} in
  let req := user_turn (ocr_texts args ++ [InlineDataPart base64 "image/png"]) in
  run (handleOCR this args) =
  match reply with
  | inl info =>
      (Rejected (VendorError info),
       [GetGenerativeModel (client this) (ocr_params this);
        GenerateContent m req;
        ConsoleError "Error in Google completion" (VendorError info)])
  | inr r =>
      (Fulfilled (CompletionResponse (text r)
                    (fst (usage_counts r)) (snd (usage_counts r))),
       [GetGenerativeModel (client this) (ocr_params this);
        GenerateContent m req])
  end.
Proof.
  intros Henc Hreply.
  pose proof (vendor_replies_OCR _ _ _ _ Henc Hreply) as Hvendor.
  rewrite handleOCR_run. cbv zeta. by rewrite Henc, Hvendor.
Qed.

Lemma handleExtraction_run_reply this args base64 reply :
  encodeImageToBase64 (image args) = inr base64 →
  vendor_replies (snd (run (handleExtraction this args))) reply →
  let p := extraction_params this args in
  let m := {| apiKey := client this; modelParams := p |} in
  let req :=
    user_turn [TextPart "Extract schema data from the following image";
               InlineDataPart base64 "image/png"] in
  run (handleExtraction this args) =
  match reply with
  | inl info =>
      (Rejected (VendorError info),
       [GetGenerativeModel (client this) p; GenerateContent m req;
        ConsoleError "Error in Google completion" (VendorError info)])
  | inr r =>
      match JSON_parse (text r) with
      | None =>
          (Rejected SyntaxError,
           [GetGenerativeModel (client this) p; GenerateContent m req;
            ConsoleError "Error in Google completion" SyntaxError])
      | Some v =>
          (Fulfilled (ExtractionResponse v
                        (fst (usage_counts r)) (snd (usage_counts r))),
           [GetGenerativeModel (client this) p; GenerateContent m req])
      end
  end.
Proof.
  intros Henc Hreply.
  pose proof (vendor_replies_extraction _ _ _ _ Henc Hreply) as Hvendor.
  rewrite handleExtraction_run. cbv zeta. by rewrite Henc, Hvendor.
Qed.

End Wire.

(** ** Failures and defaults *)

(** C1. In EXTRACTION mode, when the text of the vendor's response does not
    parse as JSON, [getCompletion] rejects with the parse error raised by
    [JSON.parse] (the specification's MalformedResponseError), which is not
    a vendor-call error, and no result is returned at all, so none whose
    [extracted] field is [null]. *)
Theorem extraction_unparseable_text_raises `{host : Host}
    (this : GoogleModel) (args : Args) (base64 : string) (r : EnhancedResponse) :
  mode this = OperationMode.EXTRACTION →
  encodeImageToBase64 (image args) = inr base64 →
  vendor_replies (snd (run (getCompletion this args))) (inr r) →
  JSON_parse (text r) = None →
  fst (run (getCompletion this args)) = Rejected SyntaxError
  ∧ (∀ info, SyntaxError ≠ VendorError info)
  ∧ (∀ response, fst (run (getCompletion this args)) ≠ Fulfilled response).
Proof.
  intros Hmode Henc Hreply Hparse.
  rewrite (getCompletion_EXTRACTION _ _ Hmode) in *.
  rewrite (handleExtraction_run_reply _ _ _ _ Henc Hreply).
  cbv zeta. rewrite Hparse. done.
Qed.

Lemma extraction_unparseable_text_raises_witness :
  let host := Fixture.host (Fixture.answer "Sorry, I cannot read this image." None) in
  JSON_parse "Sorry, I cannot read this image." = None
  ∧ fst (run (getCompletion Fixture.extraction Fixture.invoice))
    = Rejected SyntaxError.
Proof.
  intros host. split; [reflexivity|].
  apply (extraction_unparseable_text_raises (host := host)
           Fixture.extraction Fixture.invoice "SkZJRiBzY2Fu"
           {| text := "Sorry, I cannot read this image."; usageMetadata := None |}).
  - reflexivity.
  - reflexivity.
  - intros m req _. reflexivity.
  - reflexivity.
Defined.

(** C5. In both modes, when the vendor's response carries no usage
    metadata, the result has [inputTokens = 0] and [outputTokens = 0]; the
    missing metadata raises nothing: the OCR call is fulfilled, and the
    extraction call is fulfilled whenever the text parses. *)
Theorem missing_usage_metadata_counts_zero `{host : Host}
    (this : GoogleModel) (args : Args) (base64 : string) (r : EnhancedResponse) :
  encodeImageToBase64 (image args) = inr base64 →
  vendor_replies (snd (run (getCompletion this args))) (inr r) →
  usageMetadata r = None →
  (mode this = OperationMode.OCR →
   fst (run (getCompletion this args))
   = Fulfilled (CompletionResponse (text r) 0 0))
  ∧ (mode this = OperationMode.EXTRACTION →
     ∀ v, JSON_parse (text r) = Some v →
          fst (run (getCompletion this args))
          = Fulfilled (ExtractionResponse v 0 0)).
Proof.
  intros Henc Hreply Husage. split.
  - intros Hmode. rewrite (getCompletion_OCR _ _ Hmode) in *.
    rewrite (handleOCR_run_reply _ _ _ _ Henc Hreply).
    unfold usage_counts. by rewrite Husage.
  - intros Hmode v Hparse. rewrite (getCompletion_EXTRACTION _ _ Hmode) in *.
    rewrite (handleExtraction_run_reply _ _ _ _ Henc Hreply).
    cbv zeta. rewrite Hparse. unfold usage_counts. by rewrite Husage.
Qed.

Lemma missing_usage_metadata_counts_zero_witness :
  let host := Fixture.host (Fixture.answer "{ }" None) in
  fst (run (getCompletion Fixture.ocr (Fixture.page None None)))
  = Fulfilled (CompletionResponse "{ }" 0 0)
  ∧ fst (run (getCompletion Fixture.extraction Fixture.invoice))
    = Fulfilled (ExtractionResponse (Obj []) 0 0).
Proof.
  intros host. split.
  - apply (missing_usage_metadata_counts_zero (host := host)
             Fixture.ocr (Fixture.page None None) "UE5HIHBhZ2Ugb25l"
             {| text := "{ }"; usageMetadata := None |});
      [reflexivity | intros m req _; reflexivity | reflexivity | reflexivity].
  - apply (missing_usage_metadata_counts_zero (host := host)
             Fixture.extraction Fixture.invoice "SkZJRiBzY2Fu"
             {| text := "{ }"; usageMetadata := None |});
      [reflexivity | intros m req _; reflexivity | reflexivity | reflexivity
      | reflexivity].
Defined.

(** C7. In both modes, when the vendor's generate-content call fails, the
    failure is written to the console exactly once, after the one and only
    request, and the call rejects with that same error: nothing is retried
    and no result is returned. *)
Theorem vendor_failure_logged_once_and_rethrown `{host : Host}
    (this : GoogleModel) (args : Args) (base64 info : string) :
  registered (mode this) →
  encodeImageToBase64 (image args) = inr base64 →
  vendor_replies (snd (run (getCompletion this args))) (inl info) →
  fst (run (getCompletion this args)) = Rejected (VendorError info)
  ∧ logged (snd (run (getCompletion this args)))
    = [("Error in Google completion", VendorError info)]
  ∧ length (outbound (snd (run (getCompletion this args)))) = 1%nat
  ∧ last (snd (run (getCompletion this args)))
    = Some (ConsoleError "Error in Google completion" (VendorError info)).
Proof.
  intros [Hmode|Hmode] Henc Hreply.
  - rewrite (getCompletion_OCR _ _ Hmode) in *.
    by rewrite (handleOCR_run_reply _ _ _ _ Henc Hreply).
  - rewrite (getCompletion_EXTRACTION _ _ Hmode) in *.
    by rewrite (handleExtraction_run_reply _ _ _ _ Henc Hreply).
Qed.

Lemma vendor_failure_logged_once_and_rethrown_witness :
  let host := Fixture.host (inl "429 Too Many Requests") in
  fst (run (getCompletion Fixture.ocr (Fixture.page (Some true) (Some "# Page 1"))))
  = Rejected (VendorError "429 Too Many Requests")
  ∧ logged (snd (run (getCompletion Fixture.extraction Fixture.invoice)))
    = [("Error in Google completion", VendorError "429 Too Many Requests")].
Proof.
  intros host. split.
  - apply (vendor_failure_logged_once_and_rethrown (host := host)
             Fixture.ocr (Fixture.page (Some true) (Some "# Page 1"))
             "UE5HIHBhZ2Ugb25l" "429 Too Many Requests");
      [left; reflexivity | reflexivity | intros m req _; reflexivity].
  - apply (vendor_failure_logged_once_and_rethrown (host := host)
             Fixture.extraction Fixture.invoice
             "SkZJRiBzY2Fu" "429 Too Many Requests");
      [right; reflexivity | reflexivity | intros m req _; reflexivity].
Defined.

(** ** The prompt sequence *)

(** C2. For an OCR request with [maintainFormat = true] and a non-empty
    [priorPage], the one request sent to the vendor has exactly three
    parts: the base instruction, then the consistency instruction built
    from that prior page, then the inline image. *)
Theorem ocr_consistency_instruction_placed `{host : Host}
    (this : GoogleModel) (args : Args) (p base64 : string) :
  mode this = OperationMode.OCR →
  maintainFormat args = Some true →
  priorPage args = Some p →
  p ≠ "" →
  encodeImageToBase64 (image args) = inr base64 →
  ∃ m, outbound (snd (run (getCompletion this args))) =
       [(m, {| contents :=
                 [{| role := "user";
                     parts := [TextPart SYSTEM_PROMPT_BASE;
                               TextPart (CONSISTENCY_PROMPT p);
                               InlineDataPart base64 "image/png"] |}] |})].
Proof.
  intros Hmode Hmaintain Hprior Hp Henc.
  rewrite (getCompletion_OCR _ _ Hmode), handleOCR_outbound, Henc.
  eexists. unfold ocr_texts, wants_consistency, user_turn.
  rewrite Hmaintain, Hprior.
  destruct p as [|c p]; [done|]. reflexivity.
Qed.

Lemma ocr_consistency_instruction_placed_witness :
  let host := Fixture.host (Fixture.answer "# Page 2" None) in
  ∃ m, outbound (snd (run (getCompletion Fixture.ocr
                             (Fixture.page (Some true) (Some "# Page 1"))))) =
       [(m, {| contents :=
                 [{| role := "user";
                     parts := [TextPart SYSTEM_PROMPT_BASE;
                               TextPart (CONSISTENCY_PROMPT "# Page 1");
                               InlineDataPart "UE5HIHBhZ2Ugb25l" "image/png"] |}] |})].
Proof.
  intros host.
  apply (ocr_consistency_instruction_placed (host := host) Fixture.ocr
           (Fixture.page (Some true) (Some "# Page 1")) "# Page 1"
           "UE5HIHBhZ2Ugb25l");
    [reflexivity | reflexivity | reflexivity | discriminate | reflexivity].
Defined.

(** C6. For an OCR request with [maintainFormat = false], whatever
    [priorPage] is (a text, the empty text or absent), the one request sent
    to the vendor has exactly two parts, the base instruction and the
    inline image; unless the base instruction is itself an instance of the
    consistency template, no part is a consistency instruction. *)
Theorem ocr_no_consistency_instruction `{host : Host}
    (this : GoogleModel) (args : Args) (base64 : string) :
  mode this = OperationMode.OCR →
  maintainFormat args = Some false →
  encodeImageToBase64 (image args) = inr base64 →
  ∃ m parts,
    outbound (snd (run (getCompletion this args))) =
      [(m, {| contents := [{| role := "user"; parts := parts |}] |})]
    ∧ parts = [TextPart SYSTEM_PROMPT_BASE; InlineDataPart base64 "image/png"]
    ∧ ∀ q, CONSISTENCY_PROMPT q ≠ SYSTEM_PROMPT_BASE →
           TextPart (CONSISTENCY_PROMPT q) ∉ parts.
Proof.
  intros Hmode Hmaintain Henc.
  rewrite (getCompletion_OCR _ _ Hmode), handleOCR_outbound, Henc.
  do 2 eexists. unfold ocr_texts, wants_consistency, user_turn.
  rewrite Hmaintain. split; [reflexivity|]. split; [reflexivity|].
  intros q Hq Hin.
  apply elem_of_cons in Hin as [[= Heq]|Hin]; [done|].
  apply list_elem_of_singleton in Hin. discriminate.
Qed.

Lemma ocr_no_consistency_instruction_witness :
  let host := Fixture.host (Fixture.answer "# Page 2" None) in
  ∃ m parts,
    outbound (snd (run (getCompletion Fixture.ocr
                          (Fixture.page (Some false) (Some "# Page 1"))))) =
      [(m, {| contents := [{| role := "user"; parts := parts |}] |})]
    ∧ parts = [TextPart SYSTEM_PROMPT_BASE;
               InlineDataPart "UE5HIHBhZ2Ugb25l" "image/png"]
    ∧ ∀ q, CONSISTENCY_PROMPT q ≠ SYSTEM_PROMPT_BASE →
           TextPart (CONSISTENCY_PROMPT q) ∉ parts.
Proof.
  intros host.
  apply (ocr_no_consistency_instruction (host := host) Fixture.ocr
           (Fixture.page (Some false) (Some "# Page 1")) "UE5HIHBhZ2Ugb25l");
    reflexivity.
Defined.

(** C9. In both modes, every request that goes out is one user turn whose
    parts are text parts followed by exactly one inline part, in last
    position: the base64 encoding of the request's image, declared as
    ["image/png"] whatever the image is; and once the image is encoded
    exactly one request goes out. *)
Theorem outbound_single_user_turn_image_last `{host : Host}
    (this : GoogleModel) (args : Args) :
  registered (mode this) →
  (∀ m req, (m, req) ∈ outbound (snd (run (getCompletion this args))) →
     ∃ texts base64,
       req = {| contents :=
                  [{| role := "user";
                      parts := texts ++ [InlineDataPart base64 "image/png"] |}] |}
       ∧ Forall is_text texts
       ∧ encodeImageToBase64 (image args) = inr base64)
  ∧ (∀ base64, encodeImageToBase64 (image args) = inr base64 →
       length (outbound (snd (run (getCompletion this args)))) = 1%nat).
Proof.
  intros [Hmode|Hmode].
  - rewrite (getCompletion_OCR _ _ Hmode), handleOCR_outbound.
    destruct (encodeImageToBase64 (image args)) as [info|base64] eqn:Henc.
    + split; [|done]. by intros m req ?%elem_of_nil.
    + split; [|done]. intros m req [= -> ->]%list_elem_of_singleton.
      exists (ocr_texts args), base64. split; [done|]. split; [|done].
      unfold ocr_texts. destruct (wants_consistency _ _); repeat constructor.
  - rewrite (getCompletion_EXTRACTION _ _ Hmode), handleExtraction_outbound.
    destruct (encodeImageToBase64 (image args)) as [info|base64] eqn:Henc.
    + split; [|done]. by intros m req ?%elem_of_nil.
    + split; [|done]. intros m req [= -> ->]%list_elem_of_singleton.
      exists [TextPart "Extract schema data from the following image"], base64.
      split; [done|]. split; [|done]. repeat constructor.
Qed.

Lemma outbound_single_user_turn_image_last_witness :
  let host := Fixture.host (Fixture.answer "{ }" None) in
  length (outbound (snd (run (getCompletion Fixture.extraction Fixture.invoice))))
  = 1%nat.
Proof.
  intros host.
  apply (proj2 (outbound_single_user_turn_image_last (host := host)
                  Fixture.extraction Fixture.invoice
                  (or_intror eq_refl)) "SkZJRiBzY2Fu").
  reflexivity.
Defined.

(** ** The generation configuration *)

(** C4. For every EXTRACTION request, the generation configuration handed
    to the vendor client, at model creation and with every request, has
    [responseMimeType] set to ["application/json"] and [responseSchema] set
    to the caller's schema as it was given. *)
Theorem extraction_config_structured_with_schema `{host : Host}
    (this : GoogleModel) (args : Args) :
  mode this = OperationMode.EXTRACTION →
  ∃ cfg rest,
    snd (run (getCompletion this args))
    = GetGenerativeModel (client this)
        {| generationConfig := Obj cfg; model_name := model this |} :: rest
    ∧ Forall (eq (Obj cfg)) (configs (snd (run (getCompletion this args))))
    ∧ obj_get "responseMimeType" cfg = Some (Str "application/json")
    ∧ obj_get "responseSchema" cfg = Some (schema args).
Proof.
  intros Hmode.
  rewrite (getCompletion_EXTRACTION _ _ Hmode), handleExtraction_run.
  cbv zeta. unfold extraction_params.
  destruct (encodeImageToBase64 _);
    [|destruct (vendor_generateContent _ _) as [|r];
      [|destruct (JSON_parse _)]];
    (do 2 eexists; split; [reflexivity|]; split; [by repeat constructor|];
     split; [rewrite obj_get_set_ne by done|]; apply obj_get_set_eq).
Qed.

Lemma extraction_config_structured_with_schema_witness :
  let host := Fixture.host (Fixture.answer "{ }" None) in
  ∃ cfg rest,
    snd (run (getCompletion Fixture.extraction Fixture.invoice))
    = GetGenerativeModel "key"
        {| generationConfig := Obj cfg; model_name := "gemini-1.5-flash" |} :: rest
    ∧ Forall (eq (Obj cfg))
        (configs (snd (run (getCompletion Fixture.extraction Fixture.invoice))))
    ∧ obj_get "responseMimeType" cfg = Some (Str "application/json")
    ∧ obj_get "responseSchema" cfg = Some Fixture.invoice_schema.
Proof.
  intros host.
  apply (extraction_config_structured_with_schema (host := host)
           Fixture.extraction Fixture.invoice).
  reflexivity.
Defined.

(** C10. In EXTRACTION mode, two requests with the same image and the same
    schema make [getCompletion] behave identically on the same adapter and
    host: the same interactions with the vendor, in particular the same
    payload, and the same result; [maintainFormat] and [priorPage] play no
    part. *)
Theorem extraction_depends_on_image_and_schema_only `{host : Host}
    (this : GoogleModel) (args1 args2 : Args) :
  mode this = OperationMode.EXTRACTION →
  image args1 = image args2 →
  schema args1 = schema args2 →
  run (getCompletion this args1) = run (getCompletion this args2)
  ∧ outbound (snd (run (getCompletion this args1)))
    = outbound (snd (run (getCompletion this args2))).
Proof.
  intros Hmode Himage Hschema.
  rewrite !(getCompletion_EXTRACTION _ _ Hmode).
  assert (handleExtraction this args1 = handleExtraction this args2) as ->; [|done].
  unfold handleExtraction. by rewrite Himage, Hschema.
Qed.

Lemma extraction_depends_on_image_and_schema_only_witness :
  let host := Fixture.host (Fixture.answer "{ }" None) in
  let other :=
    {| image := "scan.jpg"; maintainFormat := Some true;
       priorPage := Some "# Page 1"; schema := Fixture.invoice_schema |} in
  run (getCompletion Fixture.extraction Fixture.invoice)
  = run (getCompletion Fixture.extraction other)
  ∧ outbound (snd (run (getCompletion Fixture.extraction Fixture.invoice)))
    = outbound (snd (run (getCompletion Fixture.extraction other))).
Proof.
  intros host other.
  apply (extraction_depends_on_image_and_schema_only (host := host)
           Fixture.extraction Fixture.invoice other);
    reflexivity.
Defined.

(** ** Key casing *)

Section KeyCasing.
Import SnakeCase.

Lemma to_lower_not_upper c : is_upper c = true → is_upper (to_lower c) = false.
Proof.
  destruct c as [[] [] [] [] [] [] [] []]; vm_compute; congruence.
Qed.

(** A translated key has no upper-case letter left. *)
Lemma camelToSnakeCase_lower s : has_upper (camelToSnakeCase s) = false.
Proof.
  unfold has_upper. induction s as [|c s IH]; simpl; [done|].
  destruct (is_upper c) eqn:Hc; simpl.
  - by rewrite to_lower_not_upper.
  - by rewrite Hc.
Qed.

Lemma camelToSnakeCase_not_camel s k :
  has_upper k = true → camelToSnakeCase s ≠ k.
Proof.
  intros Hk Heq. rewrite <- Heq, camelToSnakeCase_lower in Hk. done.
Qed.

Lemma obj_set_NoDup {A} k (v : A) o :
  NoDup (obj_keys o) → NoDup (obj_keys (obj_set k v o)).
Proof.
  unfold obj_keys. induction o as [|[k0 v0] o IH]; simpl; intros Hnd.
  - apply NoDup_singleton.
  - apply NoDup_cons in Hnd as [Hk0 Hnd].
    destruct (String.eqb_spec k0 k) as [->|Hne]; simpl.
    + by apply NoDup_cons.
    + apply NoDup_cons. split; [|by apply IH].
      intros [->|Hin]%(obj_keys_set k k0 v o); done.
Qed.

Lemma fromEntries_NoDup {A} (entries : list (string * A)) :
  NoDup (obj_keys (fromEntries entries)).
Proof.
  unfold fromEntries.
  assert (∀ o : object A, NoDup (obj_keys o) →
            NoDup (obj_keys (fold_left
              (fun acc kv => obj_set (fst kv) (snd kv) acc) entries o))) as H.
  { induction entries as [|[k v] entries IH]; intros o Hnd; simpl; [done|].
    by apply IH, obj_set_NoDup. }
  apply H, NoDup_nil_2.
Qed.

(** Spreading an object into an empty literal copies it. *)
Lemma obj_get_spread_Obj k v (o : object value) :
  NoDup (obj_keys o) → obj_get k o = Some v →
  obj_get k (spread (Obj o) []) = Some v.
Proof.
  intros Hnd Hget. unfold spread. simpl.
  apply obj_get_fold_NoDup; [done|]. by apply obj_get_elem_of.
Qed.

Lemma obj_keys_spread_Obj k (o : object value) :
  k ∈ obj_keys (spread (Obj o) []) ↔ k ∈ obj_keys o.
Proof.
  unfold spread. simpl. rewrite obj_keys_fold. unfold obj_keys. simpl.
  set_solver.
Qed.

(** The translation of an object, key by key. *)
Lemma convertKeysToSnakeCase_Obj props :
  convertKeysToSnakeCase (Obj props)
  = Obj (fromEntries
           (map (fun kv => (camelToSnakeCase (fst kv),
                            convertKeysToSnakeCase (snd kv))) props)).
Proof.
  simpl. do 2 f_equal. apply map_ext. by intros [k x].
Qed.

Lemma converted_keys props k' :
  k' ∈ obj_keys (fromEntries
                   (map (fun kv => (camelToSnakeCase (fst kv),
                                    convertKeysToSnakeCase (snd kv))) props))
  ↔ ∃ k, k ∈ obj_keys props ∧ k' = camelToSnakeCase k.
Proof.
  unfold fromEntries. rewrite obj_keys_fold. unfold obj_keys.
  rewrite map_map. simpl. rewrite list_elem_of_fmap.
  split.
  - intros [([k x] & -> & Hin)|Hnil]; [|by apply elem_of_nil in Hnil].
    exists k. split; [|done]. apply list_elem_of_fmap. by exists (k, x).
  - intros (k & Hin & ->). left.
    apply list_elem_of_fmap in Hin as ([k0 x] & -> & Hin). by exists (k0, x).
Qed.

Lemma converted_value props k v :
  NoDup (map camelToSnakeCase (obj_keys props)) →
  obj_get k props = Some v →
  obj_get (camelToSnakeCase k)
    (fromEntries (map (fun kv => (camelToSnakeCase (fst kv),
                                  convertKeysToSnakeCase (snd kv))) props))
  = Some (convertKeysToSnakeCase v).
Proof.
  intros Hnd Hget. unfold fromEntries. apply obj_get_fold_NoDup.
  - unfold obj_keys in Hnd. by rewrite !map_map in *.
  - apply obj_get_elem_of in Hget.
    apply list_elem_of_fmap. by exists (k, v).
Qed.

End KeyCasing.

Section Configs.
Context `{host : Host}.
Implicit Types (this : GoogleModel) (args : Args).

(** A handler creates the model first, and every later interaction with
    the vendor carries the configuration the model was created with. *)
Lemma handleOCR_configs this args :
  ∃ rest,
    snd (run (handleOCR this args))
    = GetGenerativeModel (client this) (ocr_params this) :: rest
    ∧ Forall (eq (generationConfig (ocr_params this)))
        (configs (snd (run (handleOCR this args)))).
Proof.
  rewrite handleOCR_run. cbv zeta.
  destruct (encodeImageToBase64 _);
    [|destruct (vendor_generateContent _ _)];
    (eexists; split; [reflexivity|by repeat constructor]).
Qed.

Lemma handleExtraction_configs this args :
  ∃ rest,
    snd (run (handleExtraction this args))
    = GetGenerativeModel (client this) (extraction_params this args) :: rest
    ∧ Forall (eq (generationConfig (extraction_params this args)))
        (configs (snd (run (handleExtraction this args)))).
Proof.
  rewrite handleExtraction_run. cbv zeta.
  destruct (encodeImageToBase64 _);
    [|destruct (vendor_generateContent _ _) as [|r];
      [|destruct (JSON_parse _)]];
    (eexists; split; [reflexivity|by repeat constructor]).
Qed.

End Configs.

(** The translation against the independent reading of the conventions. *)

Lemma translated_char_not_upper (c : ascii) :
  is_upper_letter
    (if SnakeCase.is_upper c then SnakeCase.to_lower c else c) = false.
Proof.
  destruct c as [[] [] [] [] [] [] [] []]; vm_compute; reflexivity.
Qed.

Lemma to_upper_to_lower (c : ascii) :
  SnakeCase.is_upper c = true →
  is_lower_letter (SnakeCase.to_lower c) = true
  ∧ to_upper (SnakeCase.to_lower c) = c.
Proof.
  destruct c as [[] [] [] [] [] [] [] []]; vm_compute; intros H;
    first [discriminate H | split; reflexivity].
Qed.

(** A translated key is in snake_case. *)
Lemma camelToSnakeCase_is_snake_case (s : string) :
  is_snake_case (SnakeCase.camelToSnakeCase s) = true.
Proof.
  unfold is_snake_case. induction s as [|c s IH]; simpl; [done|].
  pose proof (translated_char_not_upper c) as Hc.
  destruct (SnakeCase.is_upper c); simpl; by rewrite Hc.
Qed.

(** Reading the translation of a camelCase key back gives the key. *)
Lemma snakeToCamel_camelToSnakeCase (s : string) :
  is_camel_case s = true →
  snakeToCamel (SnakeCase.camelToSnakeCase s) = s.
Proof.
  unfold is_camel_case. induction s as [|c s IH]; simpl; [done|].
  intros [Hc Hs]%andb_true_iff. apply negb_true_iff in Hc.
  destruct (SnakeCase.is_upper c) eqn:Hup; simpl.
  - destruct (to_upper_to_lower c Hup) as [-> ->]. by rewrite IH.
  - rewrite Hc. by rewrite IH.
Qed.

(** Only the values that are objects are touched by the translation. *)
Lemma convertKeysToSnakeCase_scalar (v : value) :
  (∀ o, v ≠ Obj o) → SnakeCase.convertKeysToSnakeCase v = v.
Proof. intros Hv. destruct v; try done. by destruct (Hv props). Qed.

(** C8. In both modes, the caller's [llmParams] reach the vendor with their
    key names translated from camelCase to snake_case.  For every key of
    [llmParams] the configuration the vendor client is given has a key in
    snake_case, with no upper-case letter, which read back to camelCase is
    the caller's key when that one is in camelCase; the configuration has
    no other key (but [responseMimeType] and [responseSchema] in
    EXTRACTION mode); and, when no two keys translate to the same name, it
    holds under each translated key the value that was supplied, as it is
    unless it is an object, whose own keys are translated in turn. *)
Theorem llmParams_keys_snake_cased `{host : Host}
    (this : GoogleModel) (args : Args) (params : object value) :
  registered (mode this) →
  llmParams this = Some params →
  (∀ v, convertKeysToSnakeCase v = SnakeCase.convertKeysToSnakeCase v) →
  ∃ cfg rest,
    snd (run (getCompletion this args))
    = GetGenerativeModel (client this)
        {| generationConfig := Obj cfg; model_name := model this |} :: rest
    ∧ Forall (eq (Obj cfg)) (configs (snd (run (getCompletion this args))))
    ∧ (∀ k, k ∈ obj_keys params →
         ∃ k', k' ∈ obj_keys cfg
               ∧ is_snake_case k' = true
               ∧ (is_camel_case k = true → snakeToCamel k' = k)
               ∧ k' = SnakeCase.camelToSnakeCase k)
    ∧ (∀ k', k' ∈ obj_keys cfg →
         (is_snake_case k' = true
          ∧ ∃ k, k ∈ obj_keys params ∧ k' = SnakeCase.camelToSnakeCase k
                 ∧ (is_camel_case k = true → snakeToCamel k' = k))
         ∨ (mode this = OperationMode.EXTRACTION
            ∧ (k' = "responseMimeType" ∨ k' = "responseSchema")))
    ∧ (NoDup (map SnakeCase.camelToSnakeCase (obj_keys params)) →
       ∀ k v, obj_get k params = Some v →
              obj_get (SnakeCase.camelToSnakeCase k) cfg
              = Some (SnakeCase.convertKeysToSnakeCase v)
              ∧ ((∀ o, v ≠ Obj o) →
                 obj_get (SnakeCase.camelToSnakeCase k) cfg = Some v)).
Proof.
  intros [Hmode|Hmode] Hparams Hconvert.
  - rewrite (getCompletion_OCR _ _ Hmode).
    destruct (handleOCR_configs this args) as (rest & Htrace & Hcfgs).
    unfold ocr_params in *. rewrite Hparams, Hconvert in *. simpl nullish_null in *.
    rewrite convertKeysToSnakeCase_Obj in *.
    eexists. exists rest. split; [exact Htrace|]. split; [exact Hcfgs|].
    split; [|split].
    + intros k Hk. exists (SnakeCase.camelToSnakeCase k).
      split; [apply converted_keys; eauto|].
      split; [apply camelToSnakeCase_is_snake_case|].
      split; [apply snakeToCamel_camelToSnakeCase|done].
    + intros k' Hk'. left. apply converted_keys in Hk' as (k & Hk & ->).
      split; [apply camelToSnakeCase_is_snake_case|].
      exists k. split; [done|]. split; [done|].
      apply snakeToCamel_camelToSnakeCase.
    + intros Hnd k v Hget.
      assert (obj_get (SnakeCase.camelToSnakeCase k)
                (SnakeCase.fromEntries
                   (map (fun kv => (SnakeCase.camelToSnakeCase (fst kv),
                                    SnakeCase.convertKeysToSnakeCase (snd kv)))
                      params))
              = Some (SnakeCase.convertKeysToSnakeCase v)) as Hv
        by by apply converted_value.
      split; [exact Hv|].
      intros Hscalar. by rewrite Hv, convertKeysToSnakeCase_scalar.
  - rewrite (getCompletion_EXTRACTION _ _ Hmode).
    destruct (handleExtraction_configs this args) as (rest & Htrace & Hcfgs).
    unfold extraction_params in *. rewrite Hparams, Hconvert in *.
    simpl nullish_null in *. rewrite convertKeysToSnakeCase_Obj in *.
    eexists. exists rest. split; [exact Htrace|]. split; [exact Hcfgs|].
    split; [|split].
    + intros k Hk. exists (SnakeCase.camelToSnakeCase k).
      split.
      { rewrite !obj_keys_set, obj_keys_spread_Obj.
        right; right. apply converted_keys. eauto. }
      split; [apply camelToSnakeCase_is_snake_case|].
      split; [apply snakeToCamel_camelToSnakeCase|done].
    + intros k' Hk'. rewrite !obj_keys_set, obj_keys_spread_Obj in Hk'.
      destruct Hk' as [->|[->|Hk']]; [right; eauto..|].
      left. apply converted_keys in Hk' as (k & Hk & ->).
      split; [apply camelToSnakeCase_is_snake_case|].
      exists k. split; [done|]. split; [done|].
      apply snakeToCamel_camelToSnakeCase.
    + intros Hnd k v Hget.
      assert (obj_get (SnakeCase.camelToSnakeCase k)
                (obj_set "responseSchema" (schema args)
                   (obj_set "responseMimeType" (Str "application/json")
                      (spread
                         (Obj (SnakeCase.fromEntries
                                 (map (fun kv =>
                                         (SnakeCase.camelToSnakeCase (fst kv),
                                          SnakeCase.convertKeysToSnakeCase (snd kv)))
                                    params))) [])))
              = Some (SnakeCase.convertKeysToSnakeCase v)) as Hv.
      { rewrite !obj_get_set_ne
          by (apply not_eq_sym, camelToSnakeCase_not_camel; reflexivity).
        apply obj_get_spread_Obj; [apply fromEntries_NoDup|].
        by apply converted_value. }
      split; [exact Hv|].
      intros Hscalar. by rewrite Hv, convertKeysToSnakeCase_scalar.
Qed.

Lemma llmParams_keys_snake_cased_witness :
  let host := Fixture.host (Fixture.answer "{ }" None) in
  let this := Fixture.extraction in
  let args := Fixture.invoice in
  let params := Fixture.params in
  ∃ cfg rest,
    snd (run (getCompletion this args))
    = GetGenerativeModel (client this)
        {| generationConfig := Obj cfg; model_name := model this |} :: rest
    ∧ Forall (eq (Obj cfg)) (configs (snd (run (getCompletion this args))))
    ∧ (∀ k, k ∈ obj_keys params →
         ∃ k', k' ∈ obj_keys cfg
               ∧ is_snake_case k' = true
               ∧ (is_camel_case k = true → snakeToCamel k' = k)
               ∧ k' = SnakeCase.camelToSnakeCase k)
    ∧ (∀ k', k' ∈ obj_keys cfg →
         (is_snake_case k' = true
          ∧ ∃ k, k ∈ obj_keys params ∧ k' = SnakeCase.camelToSnakeCase k
                 ∧ (is_camel_case k = true → snakeToCamel k' = k))
         ∨ (mode this = OperationMode.EXTRACTION
            ∧ (k' = "responseMimeType" ∨ k' = "responseSchema")))
    ∧ (NoDup (map SnakeCase.camelToSnakeCase (obj_keys params)) →
       ∀ k v, obj_get k params = Some v →
              obj_get (SnakeCase.camelToSnakeCase k) cfg
              = Some (SnakeCase.convertKeysToSnakeCase v)
              ∧ ((∀ o, v ≠ Obj o) →
                 obj_get (SnakeCase.camelToSnakeCase k) cfg = Some v)).
Proof.
  intros host this args params.
  apply (llmParams_keys_snake_cased (host := host) this args params);
    [right; reflexivity | reflexivity | intros v; reflexivity].
Defined.

(** ** Dispatch on the mode *)

(** C3. The guard [if (!handler) throw] is there to reject every mode
    without a registered handler, and misses one that names an inherited
    member: an adapter whose mode is the string ["constructor"], neither
    OCR nor EXTRACTION, finds [Object] under that key of the dispatch
    table, calls it, and is fulfilled with an empty object; the
    unsupported-mode error the claim asks for is not raised. *)
Lemma unregistered_mode_counterexample :
  let host := Fixture.host (Fixture.answer "# Page 1" None) in
  let this := new_GoogleModel "key" "constructor" "gemini-1.5-flash" None in
  ¬ registered (mode this)
  ∧ run (getCompletion this Fixture.invoice) = (Fulfilled (Foreign (Obj [])), [])
  ∧ ∀ message,
      fst (run (getCompletion this Fixture.invoice)) ≠ Rejected (Error message).
Proof.
  intros host this. split; [|split].
  - intros [H|H]; discriminate H.
  - reflexivity.
  - intros message. discriminate.
Qed.

(** X15. Where the guard does fire, as the code stands: for an adapter
    whose mode is neither OCR nor EXTRACTION and names no member that
    object literals inherit from [Object.prototype], [getCompletion]
    rejects with [Error("Unsupported operation mode: <mode>")] without any
    interaction with the vendor or the console; and for the two registered
    modes the call is the mode's handler, which never rejects with an
    error of that kind. *)
Theorem unsupported_mode_rejected_before_any_call `{host : Host}
    (this : GoogleModel) (args : Args) :
  (¬ registered (mode this) →
   Object_prototype !! mode this = None →
   run (getCompletion this args)
   = (Rejected (Error ("Unsupported operation mode: " +:+ mode this)), []))
  ∧ (registered (mode this) →
     (mode this = OperationMode.OCR →
      getCompletion this args = handleOCR this args)
     ∧ (mode this = OperationMode.EXTRACTION →
        getCompletion this args = handleExtraction this args)
     ∧ ∀ message,
         fst (run (getCompletion this args)) ≠ Rejected (Error message)).
Proof.
  split.
  - intros Hmode Hproto.
    rewrite getCompletion_unregistered; [done| |  |done];
      intros Heq; apply Hmode; [by left|by right].
  - intros Hmode. split; [apply getCompletion_OCR|].
    split; [apply getCompletion_EXTRACTION|].
    intros message. destruct Hmode as [Hmode|Hmode].
    + rewrite (getCompletion_OCR _ _ Hmode), handleOCR_run. cbv zeta.
      destruct (encodeImageToBase64 _); [done|].
      by destruct (vendor_generateContent _ _).
    + rewrite (getCompletion_EXTRACTION _ _ Hmode), handleExtraction_run.
      cbv zeta. destruct (encodeImageToBase64 _); [done|].
      destruct (vendor_generateContent _ _) as [|r]; [done|].
      by destruct (JSON_parse _).
Qed.

Lemma unsupported_mode_rejected_before_any_call_witness :
  let host := Fixture.host (Fixture.answer "# Page 1" None) in
  let this := new_GoogleModel "key" "BATCH" "gemini-1.5-flash" None in
  run (getCompletion this Fixture.invoice)
  = (Rejected (Error "Unsupported operation mode: BATCH"), [])
  ∧ ∀ message,
      fst (run (getCompletion Fixture.ocr (Fixture.page None None)))
      ≠ Rejected (Error message).
Proof.
  intros host this. split.
  - apply (proj1 (unsupported_mode_rejected_before_any_call (host := host)
                    this Fixture.invoice)).
    + intros [H|H]; discriminate H.
    + reflexivity.
  - apply (proj2 (unsupported_mode_rejected_before_any_call (host := host)
                    Fixture.ocr (Fixture.page None None))).
    left. reflexivity.
Defined.

(** * Further properties of the handlers *)

(** The two ways a registered mode runs, with the run written out. *)
Ltac run_cases Hmode :=
  first [ rewrite !(getCompletion_OCR _ _ Hmode), !handleOCR_run in *
        | rewrite !(getCompletion_EXTRACTION _ _ Hmode), !handleExtraction_run in * ];
  cbv zeta in *.

Lemma or_zero_default (n : option Z) : or_zero n = default 0 n.
Proof.
  destruct n as [n|]; simpl; [|done].
  destruct (Z.eqb_spec n 0) as [->|]; done.
Qed.

(** ** Failures outside and inside the [try] block *)

(** X1. The image is encoded before the [try] block: when the encoder
    fails, the call rejects with the encoder's error, no request is sent
    to the vendor and, unlike a vendor failure, nothing is written to the
    console. *)
Theorem image_failure_rejects_unlogged `{host : Host}
    (this : GoogleModel) (args : Args) (info : string) :
  registered (mode this) →
  encodeImageToBase64 (image args) = inl info →
  fst (run (getCompletion this args)) = Rejected (IOError info)
  ∧ outbound (snd (run (getCompletion this args))) = []
  ∧ logged (snd (run (getCompletion this args))) = [].
Proof.
  intros [Hmode|Hmode] Henc; run_cases Hmode; by rewrite Henc.
Qed.

Lemma image_failure_rejects_unlogged_witness :
  let host := Fixture.host (Fixture.answer "# Page 1" None) in
  let args := {| image := "missing.png"; maintainFormat := Some true;
                 priorPage := Some "# Page 0"; schema := Undefined |} in
  fst (run (getCompletion Fixture.ocr args))
  = Rejected (IOError "ENOENT: no such file or directory, open missing.png")
  ∧ outbound (snd (run (getCompletion Fixture.ocr args))) = []
  ∧ logged (snd (run (getCompletion Fixture.ocr args))) = [].
Proof.
  intros host args.
  apply (image_failure_rejects_unlogged (host := host) Fixture.ocr args
           "ENOENT: no such file or directory, open missing.png");
    [left; reflexivity | reflexivity].
Defined.

(** X2. In EXTRACTION mode [JSON.parse] runs inside the [try] block, after
    the request: a text that does not parse costs one request, and the
    parse error is written to the console once, under the same label as a
    vendor failure, as the last thing the call does. *)
Theorem extraction_parse_failure_logged_after_request `{host : Host}
    (this : GoogleModel) (args : Args) (base64 : string) (r : EnhancedResponse) :
  mode this = OperationMode.EXTRACTION →
  encodeImageToBase64 (image args) = inr base64 →
  vendor_replies (snd (run (getCompletion this args))) (inr r) →
  JSON_parse (text r) = None →
  logged (snd (run (getCompletion this args)))
  = [("Error in Google completion", SyntaxError)]
  ∧ length (outbound (snd (run (getCompletion this args)))) = 1%nat
  ∧ last (snd (run (getCompletion this args)))
    = Some (ConsoleError "Error in Google completion" SyntaxError).
Proof.
  intros Hmode Henc Hreply Hparse.
  rewrite (getCompletion_EXTRACTION _ _ Hmode) in *.
  rewrite (handleExtraction_run_reply _ _ _ _ Henc Hreply).
  cbv zeta. by rewrite Hparse.
Qed.

Lemma extraction_parse_failure_logged_after_request_witness :
  let host := Fixture.host (Fixture.answer "Here is the data: { }" None) in
  logged (snd (run (getCompletion Fixture.extraction Fixture.invoice)))
  = [("Error in Google completion", SyntaxError)]
  ∧ length (outbound (snd (run (getCompletion Fixture.extraction Fixture.invoice))))
    = 1%nat
  ∧ last (snd (run (getCompletion Fixture.extraction Fixture.invoice)))
    = Some (ConsoleError "Error in Google completion" SyntaxError).
Proof.
  intros host.
  apply (extraction_parse_failure_logged_after_request (host := host)
           Fixture.extraction Fixture.invoice "SkZJRiBzY2Fu"
           {| text := "Here is the data: { }"; usageMetadata := None |});
    [reflexivity | reflexivity | intros m req _; reflexivity | reflexivity].
Defined.

(** X3. In both modes a fulfilled call has sent exactly one request and
    written nothing to the console, and its result has the shape of the
    adapter's mode: a completion in OCR mode, an extraction in EXTRACTION
    mode. *)
Theorem fulfilled_call_one_request_no_log `{host : Host}
    (this : GoogleModel) (args : Args) (response : Response) :
  registered (mode this) →
  fst (run (getCompletion this args)) = Fulfilled response →
  logged (snd (run (getCompletion this args))) = []
  ∧ length (outbound (snd (run (getCompletion this args)))) = 1%nat
  ∧ match response with
    | CompletionResponse _ _ _ => mode this = OperationMode.OCR
    | ExtractionResponse _ _ _ => mode this = OperationMode.EXTRACTION
    | Foreign _ => False
    end.
Proof.
  intros [Hmode|Hmode] Hrun; run_cases Hmode.
  - destruct (encodeImageToBase64 _); [done|].
    destruct (vendor_generateContent _ _); [done|].
    simpl in Hrun. by injection Hrun as <-.
  - destruct (encodeImageToBase64 _); [done|].
    destruct (vendor_generateContent _ _) as [|r]; [done|].
    destruct (JSON_parse _); [|done].
    simpl in Hrun. by injection Hrun as <-.
Qed.

Lemma fulfilled_call_one_request_no_log_witness :
  let host := Fixture.host (Fixture.answer "# Page 1" None) in
  logged (snd (run (getCompletion Fixture.ocr (Fixture.page None None)))) = []
  ∧ length (outbound (snd (run (getCompletion Fixture.ocr (Fixture.page None None)))))
    = 1%nat
  ∧ mode Fixture.ocr = OperationMode.OCR.
Proof.
  intros host.
  apply (fulfilled_call_one_request_no_log (host := host) Fixture.ocr
           (Fixture.page None None) (CompletionResponse "# Page 1" 0 0));
    [left; reflexivity | reflexivity].
Defined.



(** X5. In both modes a call can only reject in three ways: with the image
    encoder's error, with the vendor's error, or, in EXTRACTION mode only,
    with the parse error; OCR mode never parses the text and so never
    rejects with a parse error. *)
Theorem rejections_classified `{host : Host}
    (this : GoogleModel) (args : Args) (e : exn) :
  registered (mode this) →
  fst (run (getCompletion this args)) = Rejected e →
  (∃ info, e = IOError info ∧ encodeImageToBase64 (image args) = inl info)
  ∨ (∃ info, e = VendorError info)
  ∨ (e = SyntaxError ∧ mode this = OperationMode.EXTRACTION).
Proof.
  intros [Hmode|Hmode] Hrun; run_cases Hmode.
  - destruct (encodeImageToBase64 _) as [info|];
      [injection Hrun as <-; left; eauto|].
    destruct (vendor_generateContent _ _) as [info|]; [|done].
    injection Hrun as <-. right; left; eauto.
  - destruct (encodeImageToBase64 _) as [info|];
      [injection Hrun as <-; left; eauto|].
    destruct (vendor_generateContent _ _) as [info|r];
      [injection Hrun as <-; right; left; eauto|].
    destruct (JSON_parse _); [done|].
    injection Hrun as <-. right; right; eauto.
Qed.

Lemma rejections_classified_witness :
  let host := Fixture.host (Fixture.answer "not json" None) in
  (∃ info, SyntaxError = IOError info
           ∧ encodeImageToBase64 (image Fixture.invoice) = inl info)
  ∨ (∃ info, SyntaxError = VendorError info)
  ∨ (SyntaxError = SyntaxError
     ∧ mode Fixture.extraction = OperationMode.EXTRACTION).
Proof.
  intros host.
  apply (rejections_classified (host := host) Fixture.extraction
           Fixture.invoice SyntaxError);
    [right; reflexivity | reflexivity].
Defined.

(** ** Results *)

(** X6. In OCR mode, once the image is encoded and the vendor answers, the
    call is fulfilled with the vendor's text as it is, parseable or not,
    and with each token count the vendor reported, a count that is missing
    (with or without the rest of the usage metadata) being reported as 0. *)
Theorem ocr_returns_vendor_text_and_counts `{host : Host}
    (this : GoogleModel) (args : Args) (base64 : string) (r : EnhancedResponse) :
  mode this = OperationMode.OCR →
  encodeImageToBase64 (image args) = inr base64 →
  vendor_replies (snd (run (getCompletion this args))) (inr r) →
  fst (run (getCompletion this args))
  = Fulfilled (CompletionResponse (text r)
                 (default 0 (usageMetadata r ≫= promptTokenCount))
                 (default 0 (usageMetadata r ≫= candidatesTokenCount))).
Proof.
  intros Hmode Henc Hreply.
  rewrite (getCompletion_OCR _ _ Hmode) in *.
  rewrite (handleOCR_run_reply _ _ _ _ Henc Hreply).
  unfold usage_counts. simpl. by rewrite !or_zero_default.
Qed.

Lemma ocr_returns_vendor_text_and_counts_witness :
  let usage := {| promptTokenCount := Some 258; candidatesTokenCount := None |} in
  let host := Fixture.host (Fixture.answer "| a | b |" (Some usage)) in
  fst (run (getCompletion Fixture.ocr (Fixture.page None None)))
  = Fulfilled (CompletionResponse "| a | b |" 258 0).
Proof.
  intros usage host.
  apply (ocr_returns_vendor_text_and_counts (host := host) Fixture.ocr
           (Fixture.page None None) "UE5HIHBhZ2Ugb25l"
           {| text := "| a | b |"; usageMetadata := Some usage |});
    [reflexivity | reflexivity | intros m req _; reflexivity].
Defined.

(** X7. In EXTRACTION mode, once the image is encoded, the vendor answers
    and the text parses, the call is fulfilled with the parsed value,
    whatever it is, and with the token counts the vendor reported, a
    missing count being reported as 0. *)
Theorem extraction_returns_parsed_value_and_counts `{host : Host}
    (this : GoogleModel) (args : Args) (base64 : string) (r : EnhancedResponse)
    (v : value) :
  mode this = OperationMode.EXTRACTION →
  encodeImageToBase64 (image args) = inr base64 →
  vendor_replies (snd (run (getCompletion this args))) (inr r) →
  JSON_parse (text r) = Some v →
  fst (run (getCompletion this args))
  = Fulfilled (ExtractionResponse v
                 (default 0 (usageMetadata r ≫= promptTokenCount))
                 (default 0 (usageMetadata r ≫= candidatesTokenCount))).
Proof.
  intros Hmode Henc Hreply Hparse.
  rewrite (getCompletion_EXTRACTION _ _ Hmode) in *.
  rewrite (handleExtraction_run_reply _ _ _ _ Henc Hreply).
  cbv zeta. rewrite Hparse. unfold usage_counts. simpl.
  by rewrite !or_zero_default.
Qed.

Lemma extraction_returns_parsed_value_and_counts_witness :
  let usage := {| promptTokenCount := Some 300; candidatesTokenCount := Some 12 |} in
  let host := Fixture.host (Fixture.answer "null" (Some usage)) in
  fst (run (getCompletion Fixture.extraction Fixture.invoice))
  = Fulfilled (ExtractionResponse Null 300 12).
Proof.
  intros usage host.
  apply (extraction_returns_parsed_value_and_counts (host := host)
           Fixture.extraction Fixture.invoice "SkZJRiBzY2Fu"
           {| text := "null"; usageMetadata := Some usage |} Null);
    [reflexivity | reflexivity | intros m req _; reflexivity | reflexivity].
Defined.

(** ** Prompts *)

(** X8. In OCR mode, when [maintainFormat] is absent, or [priorPage] is
    absent or the empty text, the request has the base instruction and the
    inline image only, even with [maintainFormat = true]. *)
Theorem ocr_no_consistency_without_prior_page `{host : Host}
    (this : GoogleModel) (args : Args) (base64 : string) :
  mode this = OperationMode.OCR →
  maintainFormat args = None ∨ priorPage args = None ∨ priorPage args = Some "" →
  encodeImageToBase64 (image args) = inr base64 →
  ∃ m, outbound (snd (run (getCompletion this args))) =
       [(m, {| contents :=
                 [{| role := "user";
                     parts := [TextPart SYSTEM_PROMPT_BASE;
                               InlineDataPart base64 "image/png"] |}] |})].
Proof.
  intros Hmode Hwhy Henc.
  rewrite (getCompletion_OCR _ _ Hmode), handleOCR_outbound, Henc.
  eexists. unfold ocr_texts, user_turn.
  assert (wants_consistency (maintainFormat args) (priorPage args) = None) as ->;
    [|reflexivity].
  unfold wants_consistency.
  destruct Hwhy as [Hw | [Hw | Hw]]; rewrite Hw; [done | |];
    by destruct (maintainFormat args) as [[]|].
Qed.

Lemma ocr_no_consistency_without_prior_page_witness :
  let host := Fixture.host (Fixture.answer "# Page 1" None) in
  ∃ m, outbound (snd (run (getCompletion Fixture.ocr
                             (Fixture.page (Some true) (Some ""))))) =
       [(m, {| contents :=
                 [{| role := "user";
                     parts := [TextPart SYSTEM_PROMPT_BASE;
                               InlineDataPart "UE5HIHBhZ2Ugb25l" "image/png"] |}] |})].
Proof.
  intros host.
  apply (ocr_no_consistency_without_prior_page (host := host) Fixture.ocr
           (Fixture.page (Some true) (Some "")) "UE5HIHBhZ2Ugb25l");
    [reflexivity | right; right; reflexivity | reflexivity].
Defined.

(** X9. In OCR mode a call depends on its request only through the image
    and through the prior page that passes the test
    [maintainFormat && priorPage && priorPage.length]: two requests with
    the same image for which that test selects the same text, or none,
    behave identically; the schema never matters, nor does [priorPage]
    when [maintainFormat] is false or absent. *)
Theorem ocr_depends_on_image_and_selected_prior_page `{host : Host}
    (this : GoogleModel) (args1 args2 : Args) :
  mode this = OperationMode.OCR →
  image args1 = image args2 →
  wants_consistency (maintainFormat args1) (priorPage args1)
  = wants_consistency (maintainFormat args2) (priorPage args2) →
  run (getCompletion this args1) = run (getCompletion this args2).
Proof.
  intros Hmode Himage Hsame.
  rewrite !(getCompletion_OCR _ _ Hmode), !handleOCR_run.
  cbv zeta. unfold ocr_texts. by rewrite Himage, Hsame.
Qed.

Lemma ocr_depends_on_image_and_selected_prior_page_witness :
  let host := Fixture.host (Fixture.answer "# Page 2" None) in
  let other :=
    {| image := "page-1.png"; maintainFormat := None;
       priorPage := Some "# Page 1"; schema := Fixture.invoice_schema |} in
  run (getCompletion Fixture.ocr (Fixture.page (Some false) None))
  = run (getCompletion Fixture.ocr other).
Proof.
  intros host other.
  apply (ocr_depends_on_image_and_selected_prior_page (host := host)
           Fixture.ocr (Fixture.page (Some false) None) other);
    reflexivity.
Defined.

(** X10. In EXTRACTION mode the request has exactly two parts, the fixed
    instruction and the inline image: neither the schema nor the
    generation parameters appear in the prompt. *)
Theorem extraction_prompt_is_fixed `{host : Host}
    (this : GoogleModel) (args : Args) (base64 : string) :
  mode this = OperationMode.EXTRACTION →
  encodeImageToBase64 (image args) = inr base64 →
  ∃ m, outbound (snd (run (getCompletion this args))) =
       [(m, {| contents :=
                 [{| role := "user";
                     parts := [TextPart "Extract schema data from the following image";
                               InlineDataPart base64 "image/png"] |}] |})].
Proof.
  intros Hmode Henc.
  rewrite (getCompletion_EXTRACTION _ _ Hmode), handleExtraction_outbound, Henc.
  by eexists.
Qed.

Lemma extraction_prompt_is_fixed_witness :
  let host := Fixture.host (Fixture.answer "{ }" None) in
  ∃ m, outbound (snd (run (getCompletion Fixture.extraction Fixture.invoice))) =
       [(m, {| contents :=
                 [{| role := "user";
                     parts := [TextPart "Extract schema data from the following image";
                               InlineDataPart "SkZJRiBzY2Fu" "image/png"] |}] |})].
Proof.
  intros host.
  apply (extraction_prompt_is_fixed (host := host) Fixture.extraction
           Fixture.invoice "SkZJRiBzY2Fu");
    reflexivity.
Defined.

(** ** The model handle and its configuration *)

(** X11. In both modes a call creates exactly one model handle, first of
    all, with the adapter's own API key and model name, and every request
    goes through that handle. *)
Theorem one_model_handle_per_call `{host : Host}
    (this : GoogleModel) (args : Args) :
  registered (mode this) →
  ∃ p,
    created (snd (run (getCompletion this args))) = [(client this, p)]
    ∧ model_name p = model this
    ∧ head (snd (run (getCompletion this args)))
      = Some (GetGenerativeModel (client this) p)
    ∧ ∀ m req, (m, req) ∈ outbound (snd (run (getCompletion this args))) →
               m = {| apiKey := client this; modelParams := p |}.
Proof.
  intros [Hmode|Hmode]; run_cases Hmode.
  - exists (ocr_params this).
    destruct (encodeImageToBase64 _);
      [|destruct (vendor_generateContent _ _)];
      (split; [done|]; split; [done|]; split; [done|]; simpl;
       intros m req Hin;
       first [by apply elem_of_nil in Hin
             |by apply list_elem_of_singleton in Hin as [= -> ->]]).
  - exists (extraction_params this args).
    destruct (encodeImageToBase64 _);
      [|destruct (vendor_generateContent _ _) as [|r];
        [|destruct (JSON_parse _)]];
      (split; [done|]; split; [done|]; split; [done|]; simpl;
       intros m req Hin;
       first [by apply elem_of_nil in Hin
             |by apply list_elem_of_singleton in Hin as [= -> ->]]).
Qed.

Lemma one_model_handle_per_call_witness :
  let host := Fixture.host (Fixture.answer "# Page 1" None) in
  let this := Fixture.ocr in
  let args := Fixture.page None None in
  ∃ p,
    created (snd (run (getCompletion this args))) = [(client this, p)]
    ∧ model_name p = model this
    ∧ head (snd (run (getCompletion this args)))
      = Some (GetGenerativeModel (client this) p)
    ∧ ∀ m req, (m, req) ∈ outbound (snd (run (getCompletion this args))) →
               m = {| apiKey := client this; modelParams := p |}.
Proof.
  intros host this args.
  apply (one_model_handle_per_call (host := host) this args).
  left; reflexivity.
Defined.




(** X13. In EXTRACTION mode, when the converted generation parameters have
    no property of their own (an empty object, or [null] or [undefined],
    as for an adapter built without [llmParams]), the configuration is
    exactly [responseMimeType] and [responseSchema], in that order. *)
Theorem extraction_config_without_params `{host : Host}
    (this : GoogleModel) (args : Args) :
  mode this = OperationMode.EXTRACTION →
  own_entries (convertKeysToSnakeCase (nullish_null (llmParams this))) = [] →
  let cfg := Obj [("responseMimeType", Str "application/json");
                  ("responseSchema", schema args)] in
  head (configs (snd (run (getCompletion this args)))) = Some cfg
  ∧ Forall (eq cfg) (configs (snd (run (getCompletion this args)))).
Proof.
  intros Hmode Hnone cfg.
  rewrite (getCompletion_EXTRACTION _ _ Hmode).
  destruct (handleExtraction_configs this args) as (rest & Htrace & Hcfgs).
  unfold extraction_params, spread in *. rewrite Hnone in *. simpl in Hcfgs.
  split; [by rewrite Htrace|exact Hcfgs].
Qed.

Lemma extraction_config_without_params_witness :
  let host := Fixture.host (Fixture.answer "{ }" None) in
  let this :=
    new_GoogleModel "key" OperationMode.EXTRACTION "gemini-1.5-flash" None in
  let cfg := Obj [("responseMimeType", Str "application/json");
                  ("responseSchema", schema Fixture.invoice)] in
  head (configs (snd (run (getCompletion this Fixture.invoice)))) = Some cfg
  ∧ Forall (eq cfg) (configs (snd (run (getCompletion this Fixture.invoice)))).
Proof.
  intros host this.
  apply (extraction_config_without_params (host := host) this Fixture.invoice);
    reflexivity.
Defined.

(** ** Dispatch *)

(** X14. When the adapter's mode names a member that the dispatch table
    inherits from [Object.prototype], neither handler runs and the
    unsupported-mode error is not raised: the call reaches neither the
    vendor nor the console, and it either rejects with a [TypeError] or is
    fulfilled with a value that is no completion or extraction result. *)
Theorem inherited_mode_bypasses_handlers `{host : Host}
    (this : GoogleModel) (args : Args) (f : builtin) :
  Object_prototype !! mode this = Some f →
  ¬ registered (mode this)
  ∧ snd (run (getCompletion this args)) = []
  ∧ (fst (run (getCompletion this args)) = Rejected TypeError
     ∨ ∃ v, fst (run (getCompletion this args)) = Fulfilled (Foreign v))
  ∧ ∀ message, fst (run (getCompletion this args)) ≠ Rejected (Error message).
Proof.
  intros Hproto. split.
  { intros [Heq|Heq]; rewrite Heq in Hproto; by vm_compute in Hproto. }
  rewrite (getCompletion_inherited _ _ _ Hproto).
  split; [done|]. destruct f; simpl; split; eauto; done.
Qed.

Lemma inherited_mode_bypasses_handlers_witness :
  let host := Fixture.host (Fixture.answer "# Page 1" None) in
  let this := new_GoogleModel "key" "hasOwnProperty" "gemini-1.5-flash" None in
  let args := Fixture.invoice in
  ¬ registered (mode this)
  ∧ snd (run (getCompletion this args)) = []
  ∧ (fst (run (getCompletion this args)) = Rejected TypeError
     ∨ ∃ v, fst (run (getCompletion this args)) = Fulfilled (Foreign v))
  ∧ ∀ message, fst (run (getCompletion this args)) ≠ Rejected (Error message).
Proof.
  intros host this args.
  apply (inherited_mode_bypasses_handlers (host := host) this args
           hasOwnProperty).
  reflexivity.
Defined.
